(** * GitHub profile analyzer: data aggregation, streak analysis and
      assessment request

    A shallow embedding of [services/githubService.ts] (the fetch wrapper,
    the contribution-streak computation, the README fetch and the profile
    aggregation), of [services/geminiService.ts] ([analyzeProfile]) and of
    the [try]/[catch] block of [handleAnalyze] in [App.tsx].

    Conventions of the embedding:
    - a JavaScript [number] that holds a number of contributions is an
      [N]; a counter, a sum, an HTTP status or another integer field is a
      [Z];
    - a JavaScript string is a [string]: ASCII text as it is, and the
      binary string that [atob] produces with one byte per character;
    - a promise-returning function is a computation of type [Async A]: it
      extends the trace of observable effects and settles as [Resolved] or
      [Rejected];
    - the network, the clock, the process environment and the model
      service are the fields of a [World];
    - [as T] casts of TypeScript are taken at their word: the value
      delivered by [response.json()] has the TypeScript type the call
      site ascribes to it, except where the source reads a property of an
      untyped value, whose absence is then modelled. *)

From Stdlib Require Import ZArith String Ascii List Lia Permutation Sorted.
From stdpp Require Import base list sorting gmap strings.

Local Open Scope Z_scope.

(** ** Errors and settled promises *)

(** The classes of the exceptions that can travel through the code: the
    ones it throws itself are all plain [Error]s. *)
Inductive ErrorClass : Set :=
| Error          (* new Error(msg) *)
| TypeError      (* property read or method call on undefined/null; fetch network failure *)
| SyntaxError    (* JSON.parse on malformed text *)
| DOMException.  (* atob on malformed base64 *)

Record JsError : Set := mkError { err_class : ErrorClass; err_message : string }.

Inductive Outcome (A : Type) : Type :=
| Resolved (a : A)
| Rejected (e : JsError).
Arguments Resolved {A} a.
Arguments Rejected {A} e.

(** ** Data model ([types.ts]) *)

Record GitHubUser : Type := {
  login : string;
  name : option string;
  avatar_url : string;
  html_url : string;
  bio : option string;
  public_repos : Z;
  followers : Z;
  following : Z;
  created_at : string;
  blog : option string;
  company : option string;
  location : option string;
}.

(** An optional property ([readmeContent?: string | null]): the property
    may be missing, and when present it may hold [null]. *)
Inductive Optional (A : Type) : Type :=
| Undefined
| Defined (a : A).
Arguments Undefined {A}.
Arguments Defined {A} a.

Record GitHubRepo : Type := {
  repo_id : Z;
  repo_name : string;
  full_name : string;
  repo_html_url : string;
  description : option string;
  fork : bool;
  repo_created_at : string;
  updated_at : string;
  pushed_at : string;
  homepage : option string;
  size : Z;
  stargazers_count : Z;
  watchers_count : Z;
  language : option string;
  forks_count : Z;
  archived : bool;
  disabled : bool;
  open_issues_count : Z;
  topics : list string;
  readmeContent : Optional (option string);
}.

Record ContributionStats : Set := {
  totalContributions : Z;
  longestStreak : Z;
  currentStreak : Z;
}.

Inductive AnalysisState : Set :=
| IDLE | FETCHING_GITHUB | ANALYZING_GEMINI | COMPLETE | ERROR.

(** [{ ...repo, readmeContent: readme }] *)
Definition with_readmeContent (repo : GitHubRepo) (readme : option string) : GitHubRepo :=
  {| repo_id := repo_id repo; repo_name := repo_name repo;
     full_name := full_name repo; repo_html_url := repo_html_url repo;
     description := description repo; fork := fork repo;
     repo_created_at := repo_created_at repo; updated_at := updated_at repo;
     pushed_at := pushed_at repo; homepage := homepage repo; size := size repo;
     stargazers_count := stargazers_count repo;
     watchers_count := watchers_count repo; language := language repo;
     forks_count := forks_count repo; archived := archived repo;
     disabled := disabled repo; open_issues_count := open_issues_count repo;
     topics := topics repo; readmeContent := Defined readme |}.

(** ** JSON values ([JSON.parse]) *)

#[warnings="-register-all"]
Inductive json : Type :=
| JNull
| JBool (b : bool)
| JNumber (lexeme : string)
| JString (s : string)
| JArray (items : list json)
| JObject (members : list (string * json)).

(** ** The HTTP layer *)

Record Request : Set := { req_url : string; req_headers : list (string * string) }.

(** A response as the code observes it: the status line and the settled
    result of [response.json()], at the type [T] of the call site. *)
Record Response (T : Type) : Type := {
  status : Z;
  statusText : string;
  json_body : Outcome T;
}.
Arguments status {T} r.
Arguments statusText {T} r.
Arguments json_body {T} r.

Inductive FetchOutcome (T : Type) : Type :=
| NetworkFailure (e : JsError)
| Responds (r : Response T).
Arguments NetworkFailure {T} e.
Arguments Responds {T} r.

(** [response.ok]: the status is in the range 200-299. *)
Definition ok {T} (r : Response T) : bool := (200 <=? status r) && (status r <=? 299).

(** Payload of the README endpoint. *)
Record ReadmeData : Set := { content : string; encoding : string }.

(** One entry of the daily series: the date string and the number of
    contributions of that day. *)
Record ContributionDay : Set := { date : string; count : N }.

(** Payload of the contribution API, read through an untyped [data]:
    [data.total] and [data.contributions] may be missing. *)
Record ContributionsData : Type := {
  total : option (gmap string N);
  contributions : option (list ContributionDay);
}.

(** ** Request to the model service *)

Record RepoPrompt : Type := {
  p_name : string;
  p_description : option string;
  p_language : option string;
  p_stargazers : Z;
  p_updated_at : string;
  p_homepage : option string;
  p_topics : list string;
  p_readme_preview : string;
}.

Record PromptData : Type := {
  p_username : string;
  p_user_name : option string;
  p_bio : option string;
  p_public_repos : Z;
  p_followers : Z;
  p_created_at : string;
  p_repositories : list RepoPrompt;
}.

(** The request of [ai.models.generateContent]: the model name, the user
    prompt (its fixed prefix and the data that is stringified into it) and
    the response MIME type; the system instruction, the schema and the
    temperature are constants of the source. *)
Record GenRequest : Type := {
  gen_model : string;
  gen_prompt_prefix : string;
  gen_prompt_data : PromptData;
  gen_responseMimeType : string;
}.

(** The call either rejects or yields a response whose [text] may be
    undefined. *)
Inductive GenOutcome : Type :=
| GenFails (e : JsError)
| GenResponds (text : option string).

(** ** Effects

    The observable effects, in the order in which they are started: the
    requests sent, the entry into [analyzeProfile] and its call of the
    model service, the console messages, and the state updates of the
    component. *)

Inductive Event : Type :=
| EvFetch (req : Request)
| EvEnterAnalyzeProfile
| EvGenerateContent (req : GenRequest)
| EvConsole (msg : string)
| EvSetState (s : AnalysisState)
| EvSetError (msg : option string)
| EvSetData (user : GitHubUser) (repos : list GitHubRepo) (analysis : json)
            (stats : ContributionStats).

Definition Trace := list Event.

Definition Async (A : Type) : Type := Trace -> Outcome A * Trace.

Definition ret {A} (a : A) : Async A := fun tr => (Resolved a, tr).

Definition throw {A} (e : JsError) : Async A := fun tr => (Rejected e, tr).

Definition bind {A B} (m : Async A) (k : A -> Async B) : Async B :=
  fun tr =>
    match m tr with
    | (Resolved a, tr') => k a tr'
    | (Rejected e, tr') => (Rejected e, tr')
    end.

(** [try { body } catch (e) { handler }] *)
Definition try_catch {A} (body : Async A) (handler : JsError -> Async A) : Async A :=
  fun tr =>
    match body tr with
    | (Resolved a, tr') => (Resolved a, tr')
    | (Rejected e, tr') => handler e tr'
    end.

Definition emit (ev : Event) : Async unit := fun tr => (Resolved tt, tr ++ [ev]).

Definition settle {A} (o : Outcome A) : Async A := fun tr => (o, tr).

Notation "'await' x := m 'in' k" := (bind m (fun x => k))
  (at level 10, x pattern, m at level 100, k at level 200).
Notation "m ;;; k" := (bind m (fun _ => k))
  (at level 100, k at level 200, right associativity).

(** The settled result of a computation started on the empty trace. *)
Definition outcome {A} (m : Async A) : Outcome A := fst (m []).
Definition trace_of {A} (m : Async A) : Trace := snd (m []).

(** [Promise.all] over two promises whose bodies were started left to
    right. *)
Definition Promise_all2 {A B} (a : Async A) (b : Async B) : Async (A * B) :=
  fun tr =>
    let '(ra, tr1) := a tr in
    let '(rb, tr2) := b tr1 in
    (match ra, rb with
     | Resolved x, Resolved y => Resolved (x, y)
     | Rejected e, _ => Rejected e
     | _, Rejected e => Rejected e
     end, tr2).

(** [Promise.all] over an array of promises. *)
Fixpoint Promise_all {A} (ps : list (Async A)) : Async (list A) :=
  fun tr =>
    match ps with
    | [] => (Resolved [], tr)
    | p :: ps' =>
        let '(r, tr1) := p tr in
        let '(rs, tr2) := Promise_all ps' tr1 in
        (match r, rs with
         | Resolved x, Resolved xs => Resolved (x :: xs)
         | Rejected e, _ => Rejected e
         | _, Rejected e => Rejected e
         end, tr2)
    end.

(** [await fetch(url, { headers })] against a network [net]. *)
Definition fetch {T} (net : Request -> FetchOutcome T) (req : Request) : Async (Response T) :=
  emit (EvFetch req) ;;;
  match net req with
  | NetworkFailure e => throw e
  | Responds r => ret r
  end.

(** Truthiness of an optional string: [undefined] and the empty string
    are falsy. *)
Definition truthy (s : option string) : bool :=
  match s with
  | Some (String _ _) => true
  | _ => false
  end.

(** ** [githubService.ts]: the fetch wrapper *)

Definition BASE_URL : string := "https://api.github.com".

Definition rate_limit_message : string :=
  "GitHub API rate limit exceeded. Please try again later or provide a token.".
Definition not_found_message : string := "User or resource not found.".

(** The request that [fetchGitHub] sends: the [Accept] header, and the
    [Authorization] header when a token is given. *)
Definition github_request (url : string) (token : option string) : Request :=
  {| req_url := url;
     req_headers :=
       ("Accept", "application/vnd.github.v3+json") ::
       match token with
       | Some t => if truthy token then [("Authorization", "token " +:+ t)] else []
       | None => []
       end |}.

Definition fetchGitHub {T} (net : Request -> FetchOutcome T)
    (url : string) (token : option string) : Async T :=
  await response := fetch net (github_request url token) in
  if negb (ok response) then
    if (status response =? 403) || (status response =? 429) then
      throw (mkError Error rate_limit_message)
    else if status response =? 404 then
      throw (mkError Error not_found_message)
    else
      throw (mkError Error ("GitHub API Error: " +:+ statusText response))
  else
    settle (json_body response).

(** ** Dates

    [new Date(s).getTime()] on the date-only form [YYYY-MM-DD] that the
    contribution API documents: the number of milliseconds between the
    epoch and midnight UTC of that day. Every other string, and every
    string that names no day of the calendar, yields [None], which stands
    for [NaN].

    The model is the platform's function on the days of the calendar
    written [YYYY-MM-DD], and only there: the platform also reads date
    and time forms, and may read a day that does not exist (February
    30th) as a later one. A statement that depends on the order of the
    dates therefore assumes that every date of the series is such a day
    ([calendar_days] below). *)

Definition digit (c : ascii) : option Z :=
  let n := Z.of_N (N_of_ascii c) in
  if (48 <=? n) && (n <=? 57) then Some (n - 48) else None.

Definition is_leap (y : Z) : bool :=
  (y mod 4 =? 0) && (negb (y mod 100 =? 0) || (y mod 400 =? 0)).

Definition days_in_month (y m : Z) : Z :=
  if m =? 2 then (if is_leap y then 29 else 28)
  else if (m =? 4) || (m =? 6) || (m =? 9) || (m =? 11) then 30
  else 31.

(** Days between January 1st and the first of month [m]. *)
Definition days_before_month (y m : Z) : Z :=
  let feb := if is_leap y then 29 else 28 in
  if m =? 1 then 0
  else if m =? 2 then 31
  else if m =? 3 then 31 + feb
  else if m =? 4 then 62 + feb
  else if m =? 5 then 92 + feb
  else if m =? 6 then 123 + feb
  else if m =? 7 then 153 + feb
  else if m =? 8 then 184 + feb
  else if m =? 9 then 215 + feb
  else if m =? 10 then 245 + feb
  else if m =? 11 then 276 + feb
  else 306 + feb.

(** Days between 0000-01-01 and January 1st of year [y] (proleptic
    Gregorian calendar, year 0 being a leap year). *)
Definition days_before_year (y : Z) : Z :=
  365 * y + (y + 3) / 4 - (y + 99) / 100 + (y + 399) / 400.

Definition valid_ymd (y m d : Z) : bool :=
  (1 <=? m) && (m <=? 12) && (1 <=? d) && (d <=? days_in_month y m).

Definition day_number (y m d : Z) : Z :=
  days_before_year y + days_before_month y m + (d - 1) - days_before_year 1970.

Definition ms_per_day : Z := 86400000.

Definition parse_ymd (s : string) : option (Z * Z * Z) :=
  match s with
  | String y1 (String y2 (String y3 (String y4 (String s1
      (String m1 (String m2 (String s2 (String d1 (String d2 EmptyString))))))))) =>
      if Ascii.eqb s1 "-" && Ascii.eqb s2 "-" then
        match digit y1, digit y2, digit y3, digit y4,
              digit m1, digit m2, digit d1, digit d2 with
        | Some a, Some b, Some c, Some d, Some e, Some f, Some g, Some h =>
            Some (1000 * a + 100 * b + 10 * c + d, 10 * e + f, 10 * g + h)
        | _, _, _, _, _, _, _, _ => None
        end
      else None
  | _ => None
  end.

Definition Date_getTime (s : string) : option Z :=
  match parse_ymd s with
  | Some (y, m, d) =>
      if valid_ymd y m d then Some (day_number y m d * ms_per_day) else None
  | None => None
  end.

(** [new Date().toISOString().split('T')[0]]: the part before the first
    ['T']. *)
Fixpoint before_T (s : string) : string :=
  match s with
  | EmptyString => EmptyString
  | String c rest => if Ascii.eqb c "T" then EmptyString else String c (before_T rest)
  end.

(** ** Sorting

    [Array.prototype.sort] is stable; the comparator of the source is
    [a - b] on the two time values, and a [NaN] result counts as zero.

    When every comparison gives a number and the comparator is an order,
    as it is on days of the calendar, the result of a stable sort is
    determined, and [Array_sort] computes it. When some comparison gives
    [NaN], the order that the platform produces depends on its sorting
    algorithm; [Array_sort] then still gives a permutation of the array,
    which is all that is used of it in that case. *)

Definition compare_dates (a b : ContributionDay) : option Z :=
  match Date_getTime (date a), Date_getTime (date b) with
  | Some x, Some y => Some (x - y)
  | _, _ => None
  end.

Definition sorts_before {A} (cmp : A -> A -> option Z) (a b : A) : bool :=
  match cmp a b with
  | Some v => v <? 0
  | None => false
  end.

Fixpoint sort_insert {A} (cmp : A -> A -> option Z) (x : A) (l : list A) : list A :=
  match l with
  | [] => [x]
  | y :: l' => if sorts_before cmp y x then y :: sort_insert cmp x l' else x :: y :: l'
  end.

Fixpoint Array_sort {A} (cmp : A -> A -> option Z) (l : list A) : list A :=
  match l with
  | [] => []
  | x :: l' => sort_insert cmp x (Array_sort cmp l')
  end.

(** ** The streak computation (body of [fetchContributionStats]) *)

(** One round of the [forEach]: the state is [(longestStreak, tempStreak)]. *)
Definition forEach_day (st : Z * Z) (day : ContributionDay) : Z * Z :=
  let '(longest, temp) := st in
  if (0 <? count day)%N then (longest, temp + 1)
  else (Z.max longest temp, 0).

Definition longest_of (contributions : list ContributionDay) : Z :=
  let '(longest, temp) := fold_left forEach_day contributions (0, 0) in
  Z.max longest temp.

(** The backward [for] loop, on the entries from index [length - 1] down
    to [0]: [continue] goes on with the same count, [break] leaves. *)
Fixpoint active_loop (today : string) (backwards : list ContributionDay)
    (activeStreak : Z) : Z :=
  match backwards with
  | [] => activeStreak
  | day :: earlier =>
      if (0 <? count day)%N then active_loop today earlier (activeStreak + 1)
      else if String.eqb (date day) today then active_loop today earlier activeStreak
      else activeStreak
  end.

Definition zero_stats : ContributionStats :=
  {| totalContributions := 0; longestStreak := 0; currentStreak := 0 |}.

(** [Object.values(o)]: throws on [undefined]. *)
Definition Object_values (o : option (gmap string N)) : Async (list N) :=
  match o with
  | None => throw (mkError TypeError "Cannot convert undefined or null to object")
  | Some m => ret (map snd (map_to_list m))
  end.

(** A method call on a value that may be [undefined]. *)
Definition defined {A} (o : option A) : Async A :=
  match o with
  | None => throw (mkError TypeError "Cannot read properties of undefined")
  | Some a => ret a
  end.

(** Lines 44-94: from the parsed payload to the statistics. *)
Definition compute_stats (today : string) (data : ContributionsData) : Async ContributionStats :=
  await values := Object_values (total data) in
  let total := fold_left (fun acc curr => acc + Z.of_N curr) values 0 in
  await unsorted := defined (contributions data) in
  let contributions := Array_sort compare_dates unsorted in
  let longestStreak := longest_of contributions in
  let activeStreak := active_loop today (rev contributions) 0 in
  ret {| totalContributions := total;
         longestStreak := longestStreak;
         currentStreak := activeStreak |}.

(** ** [atob]: forgiving base64 decoding

    ASCII whitespace is dropped, up to two padding characters are removed
    when the length is a multiple of four, a length of one modulo four or
    a character outside the alphabet is an error, and the remaining bits
    of a last partial group are discarded. *)

Definition is_ascii_whitespace (c : ascii) : bool :=
  let n := N_of_ascii c in
  (n =? 9)%N || (n =? 10)%N || (n =? 12)%N || (n =? 13)%N || (n =? 32)%N.

Definition base64_value (c : ascii) : option N :=
  let n := N_of_ascii c in
  if ((65 <=? n) && (n <=? 90))%N then Some (n - 65)%N
  else if ((97 <=? n) && (n <=? 122))%N then Some (n - 71)%N
  else if ((48 <=? n) && (n <=? 57))%N then Some (n + 4)%N
  else if (n =? 43)%N then Some 62%N
  else if (n =? 47)%N then Some 63%N
  else None.

Definition strip_padding (cs : list ascii) : list ascii :=
  if (Nat.eqb (Nat.modulo (length cs) 4) 0) then
    match rev cs with
    | p1 :: p2 :: more =>
        if Ascii.eqb p1 "=" then
          if Ascii.eqb p2 "=" then rev more else rev (p2 :: more)
        else cs
    | _ => cs
    end
  else cs.

Fixpoint sextets (cs : list ascii) : option (list N) :=
  match cs with
  | [] => Some []
  | c :: cs' =>
      match base64_value c, sextets cs' with
      | Some v, Some vs => Some (v :: vs)
      | _, _ => None
      end
  end.

Definition byte_of (n : N) : ascii := ascii_of_N (n mod 256).

Fixpoint decode_groups (vs : list N) : list ascii :=
  match vs with
  | a :: b :: c :: d :: more =>
      let bits := (a * 262144 + b * 4096 + c * 64 + d)%N in
      byte_of (bits / 65536) :: byte_of (bits / 256) :: byte_of bits :: decode_groups more
  | [a; b; c] =>
      let bits := (a * 4096 + b * 64 + c)%N in
      [byte_of (bits / 1024); byte_of (bits / 4)]
  | [a; b] => [byte_of ((a * 64 + b) / 16)]
  | _ => []
  end.

Definition atob (data : string) : Outcome string :=
  let cs := strip_padding (filter (fun c => negb (is_ascii_whitespace c)) (list_ascii_of_string data)) in
  if Nat.eqb (Nat.modulo (length cs) 4) 1 then
    Rejected (mkError DOMException "InvalidCharacterError")
  else
    match sextets cs with
    | Some vs => Resolved (string_of_list_ascii (decode_groups vs))
    | None => Rejected (mkError DOMException "InvalidCharacterError")
    end.

(** [s.replace(/\n/g, '')] *)
Fixpoint remove_newlines (s : string) : string :=
  match s with
  | EmptyString => EmptyString
  | String c rest =>
      if Ascii.eqb c "010" then remove_newlines rest else String c (remove_newlines rest)
  end.

(** [s.slice(0, n)] *)
Fixpoint slice0 (n : nat) (s : string) : string :=
  match n, s with
  | S n', String c rest => String c (slice0 n' rest)
  | _, _ => EmptyString
  end.

Arguments slice0 : simpl never.
Arguments atob : simpl never.

(** ** The world around the program *)

Record World : Type := {
  github_user : Request -> FetchOutcome GitHubUser;
  github_repos : Request -> FetchOutcome (list GitHubRepo);
  github_readme : Request -> FetchOutcome ReadmeData;
  contributions_api : Request -> FetchOutcome ContributionsData;
  Date_now_toISOString : string;
  env_API_KEY : option string;
  generateContent : GenRequest -> GenOutcome;
}.

Definition today_of (w : World) : string := before_T (Date_now_toISOString w).

(** ** [githubService.ts]: contribution statistics *)

Definition contributions_request (username : string) : Request :=
  {| req_url := "https://github-contributions-api.jogruber.de/v4/" +:+ username;
     req_headers := [] |}.

Definition fetchContributionStats (w : World) (username : string) : Async ContributionStats :=
  try_catch
    (await response := fetch (contributions_api w) (contributions_request username) in
     if negb (ok response) then ret zero_stats
     else
       await data := settle (json_body response) in
       compute_stats (today_of w) data)
    (fun e =>
       emit (EvConsole "Failed to fetch contribution stats") ;;;
       ret zero_stats).

(** ** [githubService.ts]: profile, repositories, README *)

Definition user_url (username : string) : string :=
  BASE_URL +:+ "/users/" +:+ username.

Definition repos_url (username : string) : string :=
  BASE_URL +:+ "/users/" +:+ username +:+ "/repos?sort=updated&per_page=6&type=owner".

Definition getUserProfile (w : World) (username : string) (token : option string)
    : Async GitHubUser :=
  fetchGitHub (github_user w) (user_url username) token.

Definition getUserRepos (w : World) (username : string) (token : option string)
    : Async (list GitHubRepo) :=
  fetchGitHub (github_repos w) (repos_url username) token.

Definition readme_url (owner repo : string) : string :=
  BASE_URL +:+ "/repos/" +:+ owner +:+ "/" +:+ repo +:+ "/readme".

Definition getRepoReadme (w : World) (owner repo : string) (token : option string)
    : Async (option string) :=
  try_catch
    (await data := fetchGitHub (github_readme w) (readme_url owner repo) token in
     if String.eqb (encoding data) "base64" && truthy (Some (content data)) then
       await decoded := settle (atob (remove_newlines (content data))) in
       ret (Some (slice0 2000 decoded))
     else ret None)
    (fun _ => ret None).

Record ProfileData : Type := {
  pd_user : GitHubUser;
  pd_repos : list GitHubRepo;
  pd_stats : ContributionStats;
}.

(** The callback of [repos.map]. *)
Definition attach_readme (w : World) (user : GitHubUser) (token : option string)
    (index : nat) (repo : GitHubRepo) : Async GitHubRepo :=
  if (index <? 3)%nat then
    await readme := getRepoReadme w (login user) (repo_name repo) token in
    ret (with_readmeContent repo readme)
  else ret repo.

Definition fetchFullProfileData (w : World) (username : string) (token : option string)
    : Async ProfileData :=
  await user := getUserProfile w username token in
  await (repos, stats) :=
    Promise_all2 (getUserRepos w username token) (fetchContributionStats w username) in
  await reposWithReadmes := Promise_all (imap (attach_readme w user token) repos) in
  ret {| pd_user := user; pd_repos := reposWithReadmes; pd_stats := stats |}.

(** ** [JSON.parse]

    A recursive-descent reader of the JSON grammar. A number keeps its
    lexeme; a [\u] escape is stored as the UTF-8 bytes of its code unit.
    The fuel bounds the nesting depth and the number of items of one
    array or object, and the length of the text is always enough. *)

Definition DQUOTE : ascii := "034".

Definition is_json_whitespace (c : ascii) : bool :=
  let n := N_of_ascii c in
  (n =? 32)%N || (n =? 9)%N || (n =? 10)%N || (n =? 13)%N.

Fixpoint skip_ws (s : string) : string :=
  match s with
  | EmptyString => EmptyString
  | String c rest => if is_json_whitespace c then skip_ws rest else s
  end.

Definition is_digit (c : ascii) : bool :=
  let n := N_of_ascii c in ((48 <=? n) && (n <=? 57))%N.

Definition hex_value (c : ascii) : option N :=
  let n := N_of_ascii c in
  if ((48 <=? n) && (n <=? 57))%N then Some (n - 48)%N
  else if ((97 <=? n) && (n <=? 102))%N then Some (n - 87)%N
  else if ((65 <=? n) && (n <=? 70))%N then Some (n - 55)%N
  else None.

Definition utf8_of_code_unit (u : N) : string :=
  if (u <? 128)%N then String (ascii_of_N u) EmptyString
  else if (u <? 2048)%N then
    String (ascii_of_N (192 + u / 64)) (String (ascii_of_N (128 + u mod 64)) EmptyString)
  else
    String (ascii_of_N (224 + u / 4096))
      (String (ascii_of_N (128 + (u / 64) mod 64))
         (String (ascii_of_N (128 + u mod 64)) EmptyString)).

Definition simple_escape (c : ascii) : option ascii :=
  if Ascii.eqb c DQUOTE then Some DQUOTE
  else if Ascii.eqb c "\" then Some "\"%char
  else if Ascii.eqb c "/" then Some "/"%char
  else if Ascii.eqb c "b" then Some "008"%char
  else if Ascii.eqb c "f" then Some "012"%char
  else if Ascii.eqb c "n" then Some "010"%char
  else if Ascii.eqb c "r" then Some "013"%char
  else if Ascii.eqb c "t" then Some "009"%char
  else None.

(** The characters of a string literal after its opening quote, up to
    and including the closing quote. *)
Fixpoint parse_string_body (s : string) : option (string * string) :=
  match s with
  | EmptyString => None
  | String c r =>
      if Ascii.eqb c DQUOTE then Some (EmptyString, r)
      else if Ascii.eqb c "\" then
        match r with
        | EmptyString => None
        | String e r1 =>
            if Ascii.eqb e "u" then
              match r1 with
              | String h1 (String h2 (String h3 (String h4 r2))) =>
                  match hex_value h1, hex_value h2, hex_value h3, hex_value h4 with
                  | Some a, Some b, Some c', Some d =>
                      match parse_string_body r2 with
                      | Some (str, rest) =>
                          Some (utf8_of_code_unit (a * 4096 + b * 256 + c' * 16 + d)%N +:+ str, rest)
                      | None => None
                      end
                  | _, _, _, _ => None
                  end
              | _ => None
              end
            else
              match simple_escape e with
              | Some c' =>
                  match parse_string_body r1 with
                  | Some (str, rest) => Some (String c' str, rest)
                  | None => None
                  end
              | None => None
              end
        end
      else if (N_of_ascii c <? 32)%N then None
      else
        match parse_string_body r with
        | Some (str, rest) => Some (String c str, rest)
        | None => None
        end
  end.

Fixpoint span_digits (s : string) : string * string :=
  match s with
  | EmptyString => (EmptyString, EmptyString)
  | String c r =>
      if is_digit c then let '(ds, rest) := span_digits r in (String c ds, rest)
      else (EmptyString, s)
  end.

(** [-? int frac? exp?]; no leading zero before another digit. *)
Definition parse_number (s : string) : option (string * string) :=
  let '(sign, s1) :=
    match s with
    | String c r => if Ascii.eqb c "-" then ("-"%string, r) else (EmptyString, s)
    | EmptyString => (EmptyString, s)
    end in
  let '(int, s2) := span_digits s1 in
  match int with
  | EmptyString => None
  | String z (String _ _) =>
      if Ascii.eqb z "0" then None else
      Some (sign +:+ int, s2)
  | _ => Some (sign +:+ int, s2)
  end ≫= fun '(lex, s2) =>
  match s2 with
  | String c r =>
      if Ascii.eqb c "." then
        let '(ds, r') := span_digits r in
        match ds with
        | EmptyString => None
        | _ => Some (lex +:+ "." +:+ ds, r')
        end
      else Some (lex, s2)
  | EmptyString => Some (lex, s2)
  end ≫= fun '(lex, s3) =>
  match s3 with
  | String c r =>
      if Ascii.eqb c "e" || Ascii.eqb c "E" then
        let '(esign, r1) :=
          match r with
          | String c' r' =>
              if Ascii.eqb c' "+" || Ascii.eqb c' "-" then (String c' EmptyString, r')
              else (EmptyString, r)
          | EmptyString => (EmptyString, r)
          end in
        let '(ds, r2) := span_digits r1 in
        match ds with
        | EmptyString => None
        | _ => Some (lex +:+ String c esign +:+ ds, r2)
        end
      else Some (lex, s3)
  | EmptyString => Some (lex, s3)
  end.

Fixpoint strip_prefix (p s : string) : option string :=
  match p, s with
  | EmptyString, _ => Some s
  | String a p', String b s' => if Ascii.eqb a b then strip_prefix p' s' else None
  | String _ _, EmptyString => None
  end.

Fixpoint parse_value (fuel : nat) (s : string) : option (json * string) :=
  match fuel with
  | O => None
  | S fuel' =>
      let elements :=
        fix elements (n : nat) (s : string) (acc : list json) {struct n}
            : option (json * string) :=
          match n with
          | O => None
          | S n' =>
              match parse_value fuel' s with
              | Some (v, r) =>
                  match skip_ws r with
                  | String c r' =>
                      if Ascii.eqb c "," then elements n' r' (v :: acc)
                      else if Ascii.eqb c "]" then Some (JArray (rev (v :: acc)), r')
                      else None
                  | EmptyString => None
                  end
              | None => None
              end
          end in
      let members :=
        fix members (n : nat) (s : string) (acc : list (string * json)) {struct n}
            : option (json * string) :=
          match n with
          | O => None
          | S n' =>
              match skip_ws s with
              | String q r =>
                  if Ascii.eqb q DQUOTE then
                    match parse_string_body r with
                    | Some (key, r1) =>
                        match skip_ws r1 with
                        | String c r2 =>
                            if Ascii.eqb c ":" then
                              match parse_value fuel' r2 with
                              | Some (v, r3) =>
                                  match skip_ws r3 with
                                  | String c' r4 =>
                                      if Ascii.eqb c' "," then members n' r4 ((key, v) :: acc)
                                      else if Ascii.eqb c' "}" then
                                        Some (JObject (rev ((key, v) :: acc)), r4)
                                      else None
                                  | EmptyString => None
                                  end
                              | None => None
                              end
                            else None
                        | EmptyString => None
                        end
                    | None => None
                    end
                  else None
              | EmptyString => None
              end
          end in
      match skip_ws s with
      | EmptyString => None
      | String c r =>
          if Ascii.eqb c "{" then
            match skip_ws r with
            | String c' r' =>
                if Ascii.eqb c' "}" then Some (JObject [], r') else members fuel' r []
            | EmptyString => None
            end
          else if Ascii.eqb c "[" then
            match skip_ws r with
            | String c' r' =>
                if Ascii.eqb c' "]" then Some (JArray [], r') else elements fuel' r []
            | EmptyString => None
            end
          else if Ascii.eqb c DQUOTE then
            match parse_string_body r with
            | Some (str, rest) => Some (JString str, rest)
            | None => None
            end
          else if Ascii.eqb c "t" then
            match strip_prefix "rue" r with Some rest => Some (JBool true, rest) | None => None end
          else if Ascii.eqb c "f" then
            match strip_prefix "alse" r with Some rest => Some (JBool false, rest) | None => None end
          else if Ascii.eqb c "n" then
            match strip_prefix "ull" r with Some rest => Some (JNull, rest) | None => None end
          else
            match parse_number (String c r) with
            | Some (lex, rest) => Some (JNumber lex, rest)
            | None => None
            end
      end
  end.

Definition JSON_parse (text : string) : option json :=
  match parse_value (S (String.length text)) text with
  | Some (v, rest) =>
      match skip_ws rest with
      | EmptyString => Some v
      | String _ _ => None
      end
  | None => None
  end.

(** Property read [v.key]: of the members with that key the last one
    counts; a value that is no object has no such property. *)
Fixpoint lookup_member (key : string) (ms : list (string * json)) : option json :=
  match ms with
  | [] => None
  | (k, v) :: ms' =>
      match lookup_member key ms' with
      | Some v' => Some v'
      | None => if String.eqb k key then Some v else None
      end
  end.

Definition json_get (key : string) (v : json) : option json :=
  match v with
  | JObject ms => lookup_member key ms
  | _ => None
  end.

(** ** [geminiService.ts]: [analyzeProfile] *)

Definition readme_preview (r : GitHubRepo) : string :=
  match readmeContent r with
  | Defined (Some (String c rest)) => slice0 1500 (String c rest)
  | _ => "No README content available."
  end.

Definition prompt_of_repo (r : GitHubRepo) : RepoPrompt :=
  {| p_name := repo_name r;
     p_description := description r;
     p_language := language r;
     p_stargazers := stargazers_count r;
     p_updated_at := updated_at r;
     p_homepage := homepage r;
     p_topics := topics r;
     p_readme_preview := readme_preview r |}.

Definition assessment_request (user : GitHubUser) (repos : list GitHubRepo) : GenRequest :=
  {| gen_model := "gemini-2.5-flash";
     gen_prompt_prefix := "Conduct a strategic executive review of this profile: ";
     gen_prompt_data :=
       {| p_username := login user;
          p_user_name := name user;
          p_bio := bio user;
          p_public_repos := public_repos user;
          p_followers := followers user;
          p_created_at := created_at user;
          p_repositories := map prompt_of_repo repos |};
     gen_responseMimeType := "application/json" |}.

(** [await ai.models.generateContent(...)], then [response.text]. *)
Definition generate (w : World) (req : GenRequest) : Async (option string) :=
  emit (EvGenerateContent req) ;;;
  match generateContent w req with
  | GenFails e => throw e
  | GenResponds text => ret text
  end.

Definition analyzeProfile (w : World) (user : GitHubUser) (repos : list GitHubRepo)
    : Async json :=
  emit EvEnterAnalyzeProfile ;;;
  if negb (truthy (env_API_KEY w)) then
    throw (mkError Error "Gemini API Key is missing")
  else
    await text := generate w (assessment_request user repos) in
    match text with
    | Some (String c rest) =>
        match JSON_parse (String c rest) with
        | Some analysis => ret analysis
        | None => throw (mkError SyntaxError "JSON.parse: unexpected character")
        end
    | _ => throw (mkError Error "No response from AI service")
    end.

(** ** [App.tsx]: [handleAnalyze], once the target user is known
    (from [setState(AnalysisState.FETCHING_GITHUB)] to the end) *)

Definition no_repositories_message : string :=
  "This user has no public repositories to analyze.".

(** [token || undefined] *)
Definition token_or_undefined (token : string) : option string :=
  if truthy (Some token) then Some token else None.

Definition handleAnalyze (w : World) (targetUser : string) (token : string) : Async unit :=
  emit (EvSetState FETCHING_GITHUB) ;;;
  emit (EvSetError None) ;;;
  try_catch
    (await profile := fetchFullProfileData w targetUser (token_or_undefined token) in
     if Nat.eqb (length (pd_repos profile)) 0 then
       throw (mkError Error no_repositories_message)
     else
       emit (EvSetState ANALYZING_GEMINI) ;;;
       await analysis := analyzeProfile w (pd_user profile) (pd_repos profile) in
       emit (EvSetData (pd_user profile) (pd_repos profile) analysis (pd_stats profile)) ;;;
       emit (EvSetState COMPLETE))
    (fun err =>
       emit (EvConsole (err_message err)) ;;;
       emit (EvSetError
               (Some (if truthy (Some (err_message err)) then err_message err
                      else "An unexpected error occurred."%string))) ;;;
       emit (EvSetState ERROR)).

(** What the component shows after a trace of effects. *)
Record AppView : Set := { view_state : AnalysisState; view_error : option string }.

Definition apply_event (v : AppView) (ev : Event) : AppView :=
  match ev with
  | EvSetState s => {| view_state := s; view_error := view_error v |}
  | EvSetError e => {| view_state := view_state v; view_error := e |}
  | _ => v
  end.

Definition view_after (tr : Trace) : AppView :=
  fold_left apply_event tr {| view_state := IDLE; view_error := None |}.

Definition is_assessment_event (ev : Event) : bool :=
  match ev with
  | EvEnterAnalyzeProfile | EvGenerateContent _ => true
  | _ => false
  end.

(** * Vocabulary of the statements and sample inputs *)

(** A network [net] answers [req] with a success status and a body that
    parses to [v]. *)
Definition serves {T} (net : Request -> FetchOutcome T) (req : Request) (v : T) : Prop :=
  exists r, net req = Responds r /\ ok r = true /\ json_body r = Resolved v.

(** A network that answers every request with the given status line and
    a body that is not JSON. *)
Definition status_only {T} (code : Z) (text : string) : Request -> FetchOutcome T :=
  fun _ => Responds {| status := code; statusText := text;
                       json_body := Rejected (mkError SyntaxError "Unexpected end of JSON input") |}.

(** [s] between double quotes. *)
Definition dq (s : string) : string := String DQUOTE (s +:+ String DQUOTE EmptyString).

(** A profile and a repository for the sample runs. *)
Definition sample_user : GitHubUser :=
  {| login := "octocat"; name := Some "The Octocat"%string; avatar_url := "a.png";
     html_url := "https://github.com/octocat"; bio := None; public_repos := 8;
     followers := 100; following := 9; created_at := "2011-01-25T18:44:36Z";
     blog := None; company := None; location := None |}.

Definition sample_repo (n : string) : GitHubRepo :=
  {| repo_id := 1; repo_name := n; full_name := "octocat/" +:+ n;
     repo_html_url := "https://github.com/octocat/" +:+ n; description := None;
     fork := false; repo_created_at := "2011-01-26T19:01:12Z";
     updated_at := "2024-02-01T00:00:00Z"; pushed_at := "2024-02-01T00:00:00Z";
     homepage := None; size := 10; stargazers_count := 3; watchers_count := 3;
     language := Some "TypeScript"%string; forks_count := 0; archived := false;
     disabled := false; open_issues_count := 0; topics := [];
     readmeContent := Undefined |}.

(** The text [{"profileScore": 80}]. *)
Definition partial_assessment_text : string :=
  "{" +:+ dq "profileScore" +:+ ": 80}".

(** A network on which no request completes. *)
Definition offline {T} : Request -> FetchOutcome T :=
  fun _ => NetworkFailure (mkError TypeError "Failed to fetch").

(** A world whose model service answers every request with [text]. *)
Definition world_answering (text : string) : World :=
  {| github_user := offline; github_repos := offline; github_readme := offline;
     contributions_api := offline;
     Date_now_toISOString := "2024-03-01T12:00:00.000Z";
     env_API_KEY := Some "key"%string;
     generateContent := fun _ => GenResponds (Some text) |}.

(** The upstream source failed: the request did not complete, or the
    status is not a success, or the body does not parse, or the parsed
    value lacks [total] or [contributions]. *)
Definition upstream_failed (w : World) (username : string) : Prop :=
  match contributions_api w (contributions_request username) with
  | NetworkFailure _ => True
  | Responds r =>
      ok r = false \/
      match json_body r with
      | Rejected _ => True
      | Resolved data => total data = None \/ contributions data = None
      end
  end.

(** A world whose contribution source answers every request with [r]. *)
Definition world_with_contributions (now : string) (r : FetchOutcome ContributionsData)
    : World :=
  {| github_user := offline; github_repos := offline; github_readme := offline;
     contributions_api := fun _ => r;
     Date_now_toISOString := now;
     env_API_KEY := None;
     generateContent := fun _ => GenResponds None |}.

(** The answer of a contribution source that is down. *)
Definition service_unavailable : FetchOutcome ContributionsData :=
  Responds {| status := 503; statusText := "Service Unavailable";
              json_body := Rejected (mkError SyntaxError "Unexpected token") |}.

(** The sum of the values of the per-year map, as the specification
    words it. *)
Definition year_totals_sum (m : gmap string N) : Z :=
  map_fold (fun _ v acc => Z.of_N v + acc) 0 m.

(** The contribution source answers the request for [username] with the
    per-year map [m] and the daily series [days]. *)
Definition delivers (w : World) (username : string) (m : gmap string N)
    (days : list ContributionDay) : Prop :=
  serves (contributions_api w) (contributions_request username)
    {| total := Some m; contributions := Some days |}.

(** The entry of date [d] with [n] contributions. *)
Definition day (d : string) (n : N) : ContributionDay := {| date := d; count := n |}.
Arguments day d%_string n%_N.

(** A successful answer of the contribution source. *)
Definition payload (m : gmap string N) (days : list ContributionDay)
    : FetchOutcome ContributionsData :=
  Responds {| status := 200; statusText := "OK";
              json_body := Resolved {| total := Some m; contributions := Some days |} |}.

(** The per-year map [{ 2023: 5, 2024: 10 }]. *)
Definition totals_2023_2024 : gmap string N := <["2024" := 10%N]> (<["2023" := 5%N]> ∅).

(** A world whose contribution source knows two users. *)
Definition world_with_two_series (now : string) (u1 u2 : string)
    (s1 s2 : list ContributionDay) : World :=
  {| github_user := offline; github_repos := offline; github_readme := offline;
     contributions_api := fun req =>
       if String.eqb (req_url req) (req_url (contributions_request u1))
       then payload totals_2023_2024 s1
       else if String.eqb (req_url req) (req_url (contributions_request u2))
       then payload totals_2023_2024 s2
       else offline req;
     Date_now_toISOString := now;
     env_API_KEY := None;
     generateContent := fun _ => GenResponds None |}.

(** The time value of an entry, and the order of two entries whose dates
    are both days of the calendar. *)
Definition time_of (d : ContributionDay) : option Z := Date_getTime (date d).

Definition earlier (a b : ContributionDay) : Prop :=
  exists x y, time_of a = Some x /\ time_of b = Some y /\ x < y.

(** Every date of the series is a day of the calendar written
    [YYYY-MM-DD]. *)
Definition calendar_days (days : list ContributionDay) : Prop :=
  Forall (fun d => is_Some (time_of d)) days.

(** No date of the series is later than [today]. *)
Definition none_after (today : string) (days : list ContributionDay) : Prop :=
  Forall (fun d => exists x now,
            time_of d = Some x /\ Date_getTime today = Some now /\ x <= now) days.

(** The number of entries with a positive count at the front of a list. *)
Fixpoint run_length (l : list ContributionDay) : Z :=
  match l with
  | [] => 0
  | d :: l' => if (0 <? count d)%N then 1 + run_length l' else 0
  end.

(** A stretch of trace in which the assessment step does not occur. *)
Definition no_assessment (evs : Trace) : Prop :=
  Forall (fun ev => is_assessment_event ev = false) evs.

(** From any trace, [m] resolves with [a] and adds only events in which
    the assessment step does not occur. *)
Definition runs_to {A} (m : Async A) (a : A) : Prop :=
  forall tr, exists evs, m tr = (Resolved a, tr ++ evs) /\ no_assessment evs.

(** What [getRepoReadme] resolves with. *)
Definition readme_of (w : World) (owner repo : string) (token : option string)
    : option string :=
  match outcome (getRepoReadme w owner repo token) with
  | Resolved readme => readme
  | Rejected _ => None
  end.

(** What the callback of [repos.map] resolves with. *)
Definition attached (w : World) (user : GitHubUser) (token : option string)
    (index : nat) (repo : GitHubRepo) : GitHubRepo :=
  if (index <? 3)%nat
  then with_readmeContent repo (readme_of w (login user) (repo_name repo) token)
  else repo.

(** What [fetchContributionStats] resolves with. *)
Definition stats_of (w : World) (username : string) : ContributionStats :=
  match outcome (fetchContributionStats w username) with
  | Resolved stats => stats
  | Rejected _ => zero_stats
  end.

(** A successful answer with body [v]. *)
Definition answer {T} (v : T) : FetchOutcome T :=
  Responds {| status := 200; statusText := "OK"; json_body := Resolved v |}.

(** A world with a user, a list of repositories, and a README for the
    repository [documented] only. *)
Definition world_with_repos (user : GitHubUser) (repos : list GitHubRepo)
    (documented : string) (readme : ReadmeData) : World :=
  {| github_user := fun _ => answer user;
     github_repos := fun _ => answer repos;
     github_readme := fun req =>
       if String.eqb (req_url req) (readme_url (login user) documented)
       then answer readme
       else status_only 404 "Not Found" req;
     contributions_api := offline;
     Date_now_toISOString := "2024-03-01T12:00:00.000Z";
     env_API_KEY := Some "key"%string;
     generateContent := fun _ => GenResponds None |}.

(** The README payload whose content decodes to [Hello world]; the
    platform breaks the base64 text into lines. *)
Definition hello_readme : ReadmeData :=
  {| content := "SGVsbG8gd29y" +:+ String "010" "bGQ="; encoding := "base64" |}.

(** * Further vocabulary: effects, runs, streaks and the form *)

Definition oblivious {A} (m : Async A) : Prop :=
  forall tr, m tr = (outcome m, tr ++ trace_of m).

Definition tame {A} (P : Event -> Prop) (m : Async A) : Prop :=
  oblivious m /\ Forall P (trace_of m).

Definition is_network_event (ev : Event) : Prop :=
  match ev with
  | EvFetch _ | EvConsole _ => True
  | _ => False
  end.

Definition fetch_urls (tr : Trace) : list string :=
  omap (fun ev => match ev with EvFetch req => Some (req_url req) | _ => None end) tr.

(** A world in which the profile is served and the repository list is
    answered with the given status. *)
Definition world_repos_refused (user : GitHubUser) (code : Z) (text : string) : World :=
  {| github_user := fun _ => answer user;
     github_repos := status_only code text;
     github_readme := offline;
     contributions_api := offline;
     Date_now_toISOString := "2024-03-01T12:00:00.000Z";
     env_API_KEY := Some "key"%string;
     generateContent := fun _ => GenResponds None |}.

(** A world in which the profile request is answered with status 404. *)
Definition world_profile_missing : World :=
  {| github_user := status_only 404 "Not Found";
     github_repos := offline; github_readme := offline; contributions_api := offline;
     Date_now_toISOString := "2024-03-01T12:00:00.000Z";
     env_API_KEY := Some "key"%string;
     generateContent := fun _ => GenResponds None |}.

Definition is_ui_event (ev : Event) : bool :=
  match ev with
  | EvSetState _ | EvSetError _ | EvSetData _ _ _ _ => true
  | _ => false
  end.

(** [err.message || "An unexpected error occurred."] *)
Definition shown_message (e : JsError) : string :=
  if truthy (Some (err_message e)) then err_message e
  else "An unexpected error occurred.".

(** The effects of the [catch] block of [handleAnalyze]. *)
Definition failure_events (e : JsError) : Trace :=
  [EvConsole (err_message e); EvSetError (Some (shown_message e)); EvSetState ERROR].

(** A world with a user, repositories without README, and a model
    service that answers [text]. *)
Definition world_assessed (user : GitHubUser) (repos : list GitHubRepo) (text : string)
    : World :=
  {| github_user := fun _ => answer user;
     github_repos := fun _ => answer repos;
     github_readme := status_only 404 "Not Found";
     contributions_api := offline;
     Date_now_toISOString := "2024-03-01T12:00:00.000Z";
     env_API_KEY := Some "key"%string;
     generateContent := fun _ => GenResponds (Some text) |}.

(** A README payload whose content is not base64. *)
Definition garbled_readme : ReadmeData :=
  {| content := "!!!!"; encoding := "base64" |}.

(** The longest stretch of consecutive entries with a positive count. *)
Fixpoint max_run (l : list ContributionDay) : Z :=
  match l with
  | [] => 0
  | d :: l' => Z.max (run_length l) (max_run l')
  end.

(** An entry with at least one contribution. *)
Definition active (d : ContributionDay) : Prop := (0 < count d)%N.

(** The number of entries with at least one contribution. *)
#[global] Instance active_dec (d : ContributionDay) : Decision (active d) :=
  N.lt_dec 0%N (count d).

Definition active_days (l : list ContributionDay) : Z :=
  Z.of_nat (length (filter active l)).

(** [a] is not later than [b], both dates being days of the calendar. *)
Definition not_later (a b : ContributionDay) : Prop :=
  exists x y, time_of a = Some x /\ time_of b = Some y /\ x <= y.

(** ** [App.tsx]: [extractUsername] and the submission of the form

    Two functions of the platform are taken as given: [String.prototype.trim]
    and the [pathname] of [new URL(s)], which throws on a string that is no
    URL. *)

Record Platform : Type := {
  String_trim : string -> string;
  new_URL_pathname : string -> Outcome string;
}.

(** [s.includes(needle)] *)
Fixpoint includes (needle s : string) : bool :=
  String.prefix needle s ||
  match s with
  | EmptyString => false
  | String _ rest => includes needle rest
  end.

(** [s.split(sep)] for a separator of one character. *)
Fixpoint split_on (sep : ascii) (s : string) : list string :=
  match s with
  | EmptyString => [EmptyString]
  | String c rest =>
      if Ascii.eqb c sep then EmptyString :: split_on sep rest
      else
        match split_on sep rest with
        | piece :: pieces => String c piece :: pieces
        | [] => [String c EmptyString]
        end
  end.

(** [s.split('/').filter(p => p)] *)
Definition path_segments (s : string) : list string :=
  List.filter (fun p => truthy (Some p)) (split_on "/" s).

(** [extractUsername]: a [return] inside the [try] block is the value
    [Some] of the first stage, and falling out of it is [None]. *)
Definition extractUsername (p : Platform) (input : string) : Async (option string) :=
  let clean := String_trim p input in
  await fromUrl :=
    (if includes "github.com" clean then
       try_catch
         (let urlStr :=
            if String.prefix "http" clean then clean else ("https://" +:+ clean)%string in
          await pathname := settle (new_URL_pathname p urlStr) in
          match path_segments pathname with
          | first :: _ => ret (Some first)
          | [] => ret None
          end)
         (fun e => emit (EvConsole "Error parsing URL:") ;;; ret None)
     else ret None) in
  match fromUrl with
  | Some name => ret (Some name)
  | None =>
      match path_segments clean with
      | first :: _ => ret (Some first)
      | [] => ret (if truthy (Some clean) then Some clean else None)
      end
  end.



(** No character of [s] is a slash; every character of [s] is a slash. *)
Definition no_slash (s : string) : Prop :=
  Forall (fun c => c <> "/"%char) (list_ascii_of_string s).
Definition only_slashes (s : string) : Prop :=
  Forall (fun c => c = "/"%char) (list_ascii_of_string s).

(** [trim] on ASCII white space, for the sample runs. *)
Definition is_space (c : ascii) : bool :=
  let n := N_of_ascii c in
  (n =? 9)%N || (n =? 10)%N || (n =? 11)%N || (n =? 12)%N || (n =? 13)%N || (n =? 32)%N.

Fixpoint drop_spaces (cs : list ascii) : list ascii :=
  match cs with
  | c :: rest => if is_space c then drop_spaces rest else cs
  | [] => []
  end.

Definition ascii_trim (s : string) : string :=
  string_of_list_ascii
    (rev (drop_spaces (rev (drop_spaces (list_ascii_of_string s))))).

(** A platform that knows the URL of one profile. *)
Definition sample_platform : Platform :=
  {| String_trim := ascii_trim;
     new_URL_pathname := fun s =>
       if String.eqb s "https://github.com/octocat/Hello-World"
       then Resolved "/octocat/Hello-World"%string
       else Rejected (mkError TypeError "Invalid URL") |}.

(** * Properties *)

(** ** The fetch wrapper *)

Lemma fetch_run {T} (net : Request -> FetchOutcome T) req tr :
  fetch net req tr =
  (match net req with
   | NetworkFailure e => Rejected e
   | Responds r => Resolved r
   end, tr ++ [EvFetch req]).
Proof. unfold fetch, bind, emit; simpl. destruct (net req); reflexivity. Qed.

(** The wrapper performs one request, and its result does not depend on
    what happened before. *)
Lemma fetchGitHub_run {T} (net : Request -> FetchOutcome T) url token tr :
  fetchGitHub net url token tr =
  (outcome (fetchGitHub net url token), tr ++ [EvFetch (github_request url token)]).
Proof.
  unfold outcome, fetchGitHub, bind. rewrite !fetch_run.
  destruct (net (github_request url token)) as [e|r]; simpl; [reflexivity|].
  destruct (ok r); simpl; [reflexivity|].
  destruct ((status r =? 403) || (status r =? 429)); [reflexivity|].
  destruct (status r =? 404); reflexivity.
Qed.

Lemma fetchGitHub_serves {T} (net : Request -> FetchOutcome T) url token v :
  serves net (github_request url token) v ->
  outcome (fetchGitHub net url token) = Resolved v.
Proof.
  intros (r & Hr & Hok & Hbody).
  unfold outcome, fetchGitHub, bind. rewrite fetch_run, Hr; simpl.
  rewrite Hok; simpl. unfold settle. now rewrite Hbody.
Qed.

Lemma fetchGitHub_resolved_serves {T} (net : Request -> FetchOutcome T) url token v :
  outcome (fetchGitHub net url token) = Resolved v ->
  serves net (github_request url token) v.
Proof.
  unfold outcome, fetchGitHub, bind. rewrite fetch_run.
  destruct (net (github_request url token)) as [e|r] eqn:Hr; simpl; [discriminate|].
  destruct (ok r) eqn:Hok; simpl.
  - unfold settle; simpl. intros Hb. exists r. auto.
  - destruct ((status r =? 403) || (status r =? 429)); [discriminate|].
    destruct (status r =? 404); discriminate.
Qed.

Lemma rate_limit_not_found_differ : rate_limit_message <> not_found_message.
Proof. discriminate. Qed.

(** C2, as amended: on a response with status 403 or 429, with status
    404, or with any other status outside 200-299, [fetchGitHub] rejects
    with a plain [Error] in all three cases; what tells the failures apart
    is the message: the rate-limit text, the not-found text, or
    ["GitHub API Error: "] followed by the status text. *)
Theorem C2_fetchGitHub_failures_by_message
    {T} (net : Request -> FetchOutcome T) (url : string) (token : option string)
    (r : Response T) :
  net (github_request url token) = Responds r ->
  ok r = false ->
  (exists e, outcome (fetchGitHub net url token) = Rejected e /\ err_class e = Error) /\
  (status r = 403 \/ status r = 429 ->
     outcome (fetchGitHub net url token) = Rejected (mkError Error rate_limit_message)) /\
  (status r = 404 ->
     outcome (fetchGitHub net url token) = Rejected (mkError Error not_found_message)) /\
  (status r <> 403 -> status r <> 429 -> status r <> 404 ->
     outcome (fetchGitHub net url token) =
       Rejected (mkError Error ("GitHub API Error: " +:+ statusText r))) /\
  rate_limit_message <> not_found_message.
Proof.
  intros Hr Hok.
  unfold outcome, fetchGitHub, bind. rewrite fetch_run, Hr; simpl. rewrite Hok; simpl.
  repeat split.
  - destruct ((status r =? 403) || (status r =? 429)); [eauto|].
    destruct (status r =? 404); eauto.
  - intros [H|H]; rewrite H; reflexivity.
  - intros H; rewrite H; reflexivity.
  - intros H1 H2 H3.
    apply Z.eqb_neq in H1, H2, H3. now rewrite H1, H2, H3.
  - exact rate_limit_not_found_differ.
Qed.

Lemma C2_fetchGitHub_failures_by_message_witness :
  outcome (fetchGitHub (T := GitHubUser) (status_only 404 "Not Found")
             "https://api.github.com/users/ghost" None)
  = Rejected (mkError Error not_found_message).
Proof.
  refine (proj1 (proj2 (proj2
    (C2_fetchGitHub_failures_by_message (status_only 404 "Not Found")
       "https://api.github.com/users/ghost" None _ _ _))) _); reflexivity.
Defined.

(** C2, as stated, fails: the failure on status 404 and the failure on
    status 403 are errors of the same kind, and only their messages
    differ. *)
Lemma C2_not_found_and_rate_limited_same_kind :
  exists e404 e403,
    outcome (fetchGitHub (T := GitHubUser) (status_only 404 "Not Found")
               "https://api.github.com/users/ghost" None) = Rejected e404 /\
    outcome (fetchGitHub (T := GitHubUser) (status_only 403 "Forbidden")
               "https://api.github.com/users/ghost" None) = Rejected e403 /\
    err_class e404 = err_class e403 /\
    err_message e404 <> err_message e403.
Proof.
  exists (mkError Error not_found_message), (mkError Error rate_limit_message).
  repeat split. discriminate.
Qed.

(** ** The assessment requester *)

Lemma JSON_parse_empty : JSON_parse EmptyString = None.
Proof. reflexivity. Qed.

(** C1, as amended: when the credential is configured and the model
    answers with a text that parses as JSON, [analyzeProfile] resolves
    with the parsed value exactly as parsed, whether or not it has a
    [repoAnalyses] member: the shape of the value is not examined. *)
Theorem C1_analyzeProfile_returns_parsed_value
    (w : World) (user : GitHubUser) (repos : list GitHubRepo) (text : string) (v : json) :
  truthy (env_API_KEY w) = true ->
  generateContent w (assessment_request user repos) = GenResponds (Some text) ->
  JSON_parse text = Some v ->
  outcome (analyzeProfile w user repos) = Resolved v.
Proof.
  intros Hkey Hgen Hparse.
  unfold outcome, analyzeProfile, generate, bind, emit; simpl.
  rewrite Hkey; simpl. rewrite Hgen; simpl.
  destruct text as [|c rest]; [discriminate Hparse|].
  now rewrite Hparse.
Qed.

Lemma C1_analyzeProfile_returns_parsed_value_witness :
  JSON_parse partial_assessment_text = Some (JObject [("profileScore"%string, JNumber "80")]) /\
  outcome (analyzeProfile (world_answering partial_assessment_text) sample_user
             [sample_repo "hello"])
  = Resolved (JObject [("profileScore"%string, JNumber "80")]).
Proof.
  split; [reflexivity|].
  apply (C1_analyzeProfile_returns_parsed_value
           (world_answering partial_assessment_text) sample_user [sample_repo "hello"]
           partial_assessment_text); reflexivity.
Defined.

(** The three ways in which [analyzeProfile] does fail. *)
Lemma analyzeProfile_without_key w user repos :
  truthy (env_API_KEY w) = false ->
  outcome (analyzeProfile w user repos) = Rejected (mkError Error "Gemini API Key is missing").
Proof.
  intros Hkey. unfold outcome, analyzeProfile, bind, emit; simpl. now rewrite Hkey.
Qed.

Lemma analyzeProfile_without_text w user repos text :
  truthy (env_API_KEY w) = true ->
  generateContent w (assessment_request user repos) = GenResponds text ->
  truthy text = false ->
  outcome (analyzeProfile w user repos) = Rejected (mkError Error "No response from AI service").
Proof.
  intros Hkey Hgen Htext.
  unfold outcome, analyzeProfile, generate, bind, emit; simpl.
  rewrite Hkey; simpl. rewrite Hgen; simpl.
  destruct text as [[|c rest]|]; [reflexivity|discriminate|reflexivity].
Qed.

Lemma analyzeProfile_unparsable_text w user repos text :
  truthy (env_API_KEY w) = true ->
  generateContent w (assessment_request user repos) = GenResponds (Some text) ->
  truthy (Some text) = true ->
  JSON_parse text = None ->
  exists e, outcome (analyzeProfile w user repos) = Rejected e /\ err_class e = SyntaxError.
Proof.
  intros Hkey Hgen Htext Hparse.
  unfold outcome, analyzeProfile, generate, bind, emit; simpl.
  rewrite Hkey; simpl. rewrite Hgen; simpl.
  destruct text as [|c rest]; [discriminate|].
  rewrite Hparse. eexists; split; reflexivity.
Qed.

(** C1, as stated, fails: the answer [{"profileScore": 80}] parses as JSON
    and has no [repoAnalyses] member, and [analyzeProfile] does not
    reject: it resolves with that incomplete object. *)
Lemma C1_partial_assessment_is_returned :
  exists v,
    JSON_parse partial_assessment_text = Some v /\
    json_get "repoAnalyses" v = None /\
    outcome (analyzeProfile (world_answering partial_assessment_text) sample_user
               [sample_repo "hello"]) = Resolved v /\
    forall e, outcome (analyzeProfile (world_answering partial_assessment_text) sample_user
                         [sample_repo "hello"]) <> Rejected e.
Proof.
  exists (JObject [("profileScore"%string, JNumber "80")]).
  repeat split; discriminate.
Qed.

(** ** Contribution statistics: failures *)

Lemma compute_stats_run today data tr :
  exists o, compute_stats today data tr = (o, tr).
Proof.
  unfold compute_stats, bind, Object_values, defined, ret, throw.
  destruct (total data); [|eauto].
  destruct (contributions data); eauto.
Qed.

(** [fetchContributionStats] never rejects. *)
Lemma fetchContributionStats_total w username tr :
  exists stats tr', fetchContributionStats w username tr = (Resolved stats, tr').
Proof.
  unfold fetchContributionStats, try_catch, bind. rewrite fetch_run.
  destruct (contributions_api w (contributions_request username)) as [e|r]; simpl.
  - unfold emit, ret; simpl. eauto.
  - destruct (ok r); simpl.
    + unfold settle. destruct (json_body r) as [data|e]; simpl.
      * destruct (compute_stats_run (today_of w) data
                    (tr ++ [EvFetch (contributions_request username)])) as [o Ho].
        rewrite Ho. destruct o; unfold emit, ret; simpl; eauto.
      * unfold emit, ret; simpl; eauto.
    + unfold ret; eauto.
Qed.

(** C6: when the contribution source fails in any of these ways,
    [fetchContributionStats] resolves with all three fields zero; it does
    not reject. *)
Theorem C6_fetchContributionStats_degrades_to_zero (w : World) (username : string) :
  upstream_failed w username ->
  outcome (fetchContributionStats w username)
  = Resolved {| totalContributions := 0; longestStreak := 0; currentStreak := 0 |}.
Proof.
  unfold upstream_failed, outcome, fetchContributionStats, try_catch, bind.
  rewrite fetch_run.
  destruct (contributions_api w (contributions_request username)) as [e|r]; simpl.
  - reflexivity.
  - intros [Hok|Hbody].
    + rewrite Hok; reflexivity.
    + destruct (ok r); simpl; [|reflexivity].
      unfold settle. destruct (json_body r) as [data|e]; simpl; [|reflexivity].
      unfold compute_stats, bind, Object_values, defined.
      destruct Hbody as [Ht|Hc].
      * rewrite Ht; reflexivity.
      * rewrite Hc. destruct (total data); reflexivity.
Qed.

Lemma C6_fetchContributionStats_degrades_to_zero_witness :
  upstream_failed (world_with_contributions "2024-03-01T12:00:00.000Z" service_unavailable)
    "octocat" /\
  outcome (fetchContributionStats
             (world_with_contributions "2024-03-01T12:00:00.000Z" service_unavailable)
             "octocat")
  = Resolved {| totalContributions := 0; longestStreak := 0; currentStreak := 0 |}.
Proof.
  assert (H : upstream_failed
                (world_with_contributions "2024-03-01T12:00:00.000Z" service_unavailable)
                "octocat") by (left; reflexivity).
  split; [exact H|].
  exact (C6_fetchContributionStats_degrades_to_zero _ _ H).
Defined.

(** ** Contribution statistics: the computation *)

Lemma fold_left_add_values (l : list (string * N)) (a : Z) :
  fold_left (fun acc curr => acc + Z.of_N curr) (map snd l) a
  = a + foldr (fun kv acc => Z.of_N (snd kv) + acc) 0 l.
Proof.
  revert a. induction l as [|[k v] l IH]; intros a; simpl; [lia|].
  rewrite IH. lia.
Qed.

Lemma values_sum (m : gmap string N) :
  fold_left (fun acc curr => acc + Z.of_N curr) (map snd (map_to_list m)) 0
  = year_totals_sum m.
Proof.
  rewrite fold_left_add_values. unfold year_totals_sum.
  rewrite map_fold_foldr, Z.add_0_l.
  induction (map_to_list m) as [|[k v] l IH]; simpl; [reflexivity|].
  now rewrite IH.
Qed.

(** On a well-formed payload the function resolves with the statistics
    of the sorted series. *)
Lemma fetchContributionStats_delivers w username m days :
  delivers w username m days ->
  outcome (fetchContributionStats w username) =
  Resolved {| totalContributions := year_totals_sum m;
              longestStreak := longest_of (Array_sort compare_dates days);
              currentStreak :=
                active_loop (today_of w) (rev (Array_sort compare_dates days)) 0 |}.
Proof.
  intros (r & Hr & Hok & Hbody).
  unfold outcome, fetchContributionStats, try_catch, bind.
  rewrite fetch_run, Hr; simpl. rewrite Hok; simpl.
  unfold settle. rewrite Hbody; simpl.
  unfold compute_stats, bind; simpl. now rewrite values_sum.
Qed.

(** C5: on every payload that was fetched and parsed, the total is the
    sum of the values of the per-year map, whatever the daily series
    holds. *)
Theorem C5_total_is_sum_of_year_totals
    (w : World) (username : string) (m : gmap string N) (days : list ContributionDay) :
  delivers w username m days ->
  exists stats,
    outcome (fetchContributionStats w username) = Resolved stats /\
    totalContributions stats = year_totals_sum m.
Proof.
  intros H. rewrite (fetchContributionStats_delivers _ _ _ _ H).
  eexists; split; reflexivity.
Qed.

Lemma delivers_payload now u1 u2 s1 s2 :
  delivers (world_with_two_series now u1 u2 s1 s2) u1 totals_2023_2024 s1.
Proof.
  unfold delivers, serves. eexists. split; [|split].
  - simpl. rewrite String.eqb_refl. reflexivity.
  - reflexivity.
  - reflexivity.
Qed.

Lemma C5_total_is_sum_of_year_totals_witness :
  exists stats,
    outcome (fetchContributionStats
               (world_with_two_series "2024-03-01T12:00:00.000Z" "octocat" "hubot"
                  [day "2024-02-29" 4] [])
               "octocat") = Resolved stats /\
    totalContributions stats = 15.
Proof.
  destruct (C5_total_is_sum_of_year_totals _ "octocat" totals_2023_2024
              [day "2024-02-29" 4]
              (delivers_payload "2024-03-01T12:00:00.000Z" "octocat" "hubot"
                 [day "2024-02-29" 4] [])) as (stats & Hs & Ht).
  exists stats. split; [exact Hs|]. rewrite Ht. reflexivity.
Defined.

(** ** Sorting keeps the entries *)

Lemma sort_insert_perm {A} (cmp : A -> A -> option Z) x l :
  sort_insert cmp x l ≡ₚ x :: l.
Proof.
  induction l as [|y l IH]; simpl; [reflexivity|].
  destruct (sorts_before cmp y x); [|reflexivity].
  rewrite IH. apply Permutation_swap.
Qed.

Lemma Array_sort_perm {A} (cmp : A -> A -> option Z) l :
  Array_sort cmp l ≡ₚ l.
Proof.
  induction l as [|x l IH]; simpl; [reflexivity|].
  rewrite sort_insert_perm. now rewrite IH.
Qed.

Lemma Array_sort_length {A} (cmp : A -> A -> option Z) l :
  length (Array_sort cmp l) = length l.
Proof. apply Permutation_length, Array_sort_perm. Qed.

Lemma Array_sort_Forall {A} (cmp : A -> A -> option Z) (P : A -> Prop) l :
  Forall P l -> Forall P (Array_sort cmp l).
Proof. intros H. now rewrite Array_sort_perm. Qed.

(** ** The two scans on uniform series *)

Lemma forEach_all_zero l :
  Forall (fun d => count d = 0%N) l -> fold_left forEach_day l (0, 0) = (0, 0).
Proof.
  induction 1 as [|d l Hd _ IH]; simpl; [reflexivity|].
  rewrite Hd. simpl. exact IH.
Qed.

Lemma active_loop_all_zero today l :
  Forall (fun d => count d = 0%N) l -> active_loop today l 0 = 0.
Proof.
  induction 1 as [|d l Hd _ IH]; simpl; [reflexivity|].
  rewrite Hd. simpl. destruct (String.eqb (date d) today); [exact IH|reflexivity].
Qed.

Lemma forEach_all_positive l longest temp :
  Forall (fun d => (0 < count d)%N) l ->
  fold_left forEach_day l (longest, temp) = (longest, temp + Z.of_nat (length l)).
Proof.
  intros H. revert temp. induction H as [|d l Hd _ IH]; intros temp; simpl.
  - f_equal. lia.
  - apply N.ltb_lt in Hd. rewrite Hd, IH. f_equal. lia.
Qed.

Lemma active_loop_all_positive today l n :
  Forall (fun d => (0 < count d)%N) l ->
  active_loop today l n = n + Z.of_nat (length l).
Proof.
  intros H. revert n. induction H as [|d l Hd _ IH]; intros n; simpl.
  - lia.
  - apply N.ltb_lt in Hd. rewrite Hd, IH. lia.
Qed.

(** C8: when every count of the series is zero (the empty series
    included) both streaks are zero, and when every count is positive
    both streaks are the length of the series. *)
Theorem C8_uniform_series_streaks
    (w : World) (username : string) (m : gmap string N) (days : list ContributionDay) :
  delivers w username m days ->
  exists stats,
    outcome (fetchContributionStats w username) = Resolved stats /\
    (Forall (fun d => count d = 0%N) days ->
       longestStreak stats = 0 /\ currentStreak stats = 0) /\
    (Forall (fun d => (0 < count d)%N) days ->
       longestStreak stats = Z.of_nat (length days) /\
       currentStreak stats = Z.of_nat (length days)).
Proof.
  intros H. rewrite (fetchContributionStats_delivers _ _ _ _ H).
  eexists; split; [reflexivity|]. simpl. split; intros Hall.
  - apply (Array_sort_Forall compare_dates) in Hall. split.
    + unfold longest_of. now rewrite forEach_all_zero.
    + apply active_loop_all_zero. now apply Forall_rev.
  - apply (Array_sort_Forall compare_dates) in Hall. split.
    + unfold longest_of. rewrite forEach_all_positive by exact Hall.
      rewrite Array_sort_length. lia.
    + rewrite active_loop_all_positive by now apply Forall_rev.
      rewrite length_rev, Array_sort_length. lia.
Qed.

Lemma C8_uniform_series_streaks_witness :
  exists positive zero,
    outcome (fetchContributionStats
               (world_with_two_series "2024-03-01T12:00:00.000Z" "octocat" "hubot"
                  [day "2024-02-29" 4; day "2024-02-27" 1; day "2024-02-28" 2]
                  [day "2024-03-01" 0; day "2024-02-29" 0])
               "octocat") = Resolved positive /\
    longestStreak positive = 3 /\ currentStreak positive = 3 /\
    outcome (fetchContributionStats
               (world_with_two_series "2024-03-01T12:00:00.000Z" "hubot" "octocat"
                  [day "2024-03-01" 0; day "2024-02-29" 0]
                  [day "2024-02-29" 4; day "2024-02-27" 1; day "2024-02-28" 2])
               "hubot") = Resolved zero /\
    longestStreak zero = 0 /\ currentStreak zero = 0.
Proof.
  destruct (C8_uniform_series_streaks _ "octocat" totals_2023_2024 _
              (delivers_payload "2024-03-01T12:00:00.000Z" "octocat" "hubot"
                 [day "2024-02-29" 4; day "2024-02-27" 1; day "2024-02-28" 2]
                 [day "2024-03-01" 0; day "2024-02-29" 0]))
    as (positive & Hp & _ & Hpos).
  destruct (C8_uniform_series_streaks _ "hubot" totals_2023_2024 _
              (delivers_payload "2024-03-01T12:00:00.000Z" "hubot" "octocat"
                 [day "2024-03-01" 0; day "2024-02-29" 0]
                 [day "2024-02-29" 4; day "2024-02-27" 1; day "2024-02-28" 2]))
    as (zero & Hz & Hzero & _).
  exists positive, zero.
  destruct Hpos as [Hl Hc]; [repeat constructor|].
  destruct Hzero as [Hl0 Hc0]; [repeat constructor|].
  repeat split; assumption.
Defined.

(** ** Sorting by date *)

Lemma sorts_before_dates a b x y :
  time_of a = Some x -> time_of b = Some y ->
  sorts_before compare_dates a b = (x - y <? 0).
Proof.
  unfold time_of, sorts_before, compare_dates. now intros -> ->.
Qed.

Lemma sort_insert_front x l :
  Forall (earlier x) l -> sort_insert compare_dates x l = x :: l.
Proof.
  destruct 1 as [|y l (tx & ty & Hx & Hy & Hlt) _]; simpl; [reflexivity|].
  rewrite (sorts_before_dates _ _ _ _ Hy Hx).
  replace (ty - tx <? 0) with false by (symmetry; apply Z.ltb_ge; lia).
  reflexivity.
Qed.

(** A series that is already in ascending order of distinct days is left
    as it is. *)
Lemma Array_sort_sorted l :
  StronglySorted earlier l -> Array_sort compare_dates l = l.
Proof.
  induction 1 as [|x l _ IH Hx]; simpl; [reflexivity|].
  rewrite IH. now apply sort_insert_front.
Qed.

(** ** Today's zero and an earlier zero in the backward scan *)

Lemma active_loop_skips_today today earlier n :
  active_loop today (day today 0 :: earlier) n = active_loop today earlier n.
Proof. unfold day; simpl. now rewrite String.eqb_refl. Qed.

Lemma active_loop_stops_before_today today d earlier n :
  d <> today -> active_loop today (day d 0 :: earlier) n = n.
Proof. intros H. unfold day; simpl. apply String.eqb_neq in H. now rewrite H. Qed.

(** C4: in the backward scan a zero entry dated today is passed over and
    the scan goes on, a zero entry of any other date ends it; so, [d]
    being today, [d1] the day before and [d2] two days before, the series
    [(d1,1),(d,0)] has current streak 1 and the series
    [(d2,1),(d1,0),(d,0)] has current streak 0. *)
Theorem C4_current_streak_skips_only_today
    (w : World) (u1 u2 : string) (m : gmap string N) (d d1 d2 : string) (t : Z) :
  today_of w = d ->
  Date_getTime d = Some t ->
  Date_getTime d1 = Some (t - ms_per_day) ->
  Date_getTime d2 = Some (t - 2 * ms_per_day) ->
  delivers w u1 m [day d1 1; day d 0] ->
  delivers w u2 m [day d2 1; day d1 0; day d 0] ->
  (forall earlier n,
     active_loop d (day d 0 :: earlier) n = active_loop d earlier n) /\
  (forall x earlier n, x <> d -> active_loop d (day x 0 :: earlier) n = n) /\
  (exists stats,
     outcome (fetchContributionStats w u1) = Resolved stats /\ currentStreak stats = 1) /\
  (exists stats,
     outcome (fetchContributionStats w u2) = Resolved stats /\ currentStreak stats = 0).
Proof.
  intros Htoday Hd Hd1 Hd2 H1 H2.
  assert (Hne : String.eqb d1 d = false).
  { apply String.eqb_neq. intros ->. rewrite Hd in Hd1. injection Hd1.
    unfold ms_per_day. lia. }
  split; [intros; apply active_loop_skips_today|].
  split; [intros; now apply active_loop_stops_before_today|].
  assert (E1 : earlier (day d1 1) (day d 0)).
  { exists (t - ms_per_day), t. unfold ms_per_day. repeat split; [assumption..|lia]. }
  assert (E2 : earlier (day d2 1) (day d1 0)).
  { exists (t - 2 * ms_per_day), (t - ms_per_day). unfold ms_per_day.
    repeat split; [assumption..|lia]. }
  assert (E3 : earlier (day d2 1) (day d 0)).
  { exists (t - 2 * ms_per_day), t. unfold ms_per_day. repeat split; [assumption..|lia]. }
  assert (E4 : earlier (day d1 0) (day d 0)).
  { exists (t - ms_per_day), t. unfold ms_per_day. repeat split; [assumption..|lia]. }
  rewrite (fetchContributionStats_delivers _ _ _ _ H1).
  rewrite (fetchContributionStats_delivers _ _ _ _ H2).
  rewrite Htoday, !Array_sort_sorted by (repeat constructor; assumption).
  split; eexists; (split; [reflexivity|]); unfold day; simpl.
  - now rewrite String.eqb_refl.
  - now rewrite String.eqb_refl, Hne.
Qed.

Lemma delivers_payload_second now u1 u2 s1 s2 :
  String.eqb (req_url (contributions_request u2)) (req_url (contributions_request u1)) = false ->
  delivers (world_with_two_series now u1 u2 s1 s2) u2 totals_2023_2024 s2.
Proof.
  intros Hne. unfold delivers, serves. eexists. split; [|split].
  - simpl in *. rewrite Hne, String.eqb_refl. reflexivity.
  - reflexivity.
  - reflexivity.
Qed.

Lemma C4_current_streak_skips_only_today_witness :
  (exists stats,
     outcome (fetchContributionStats
                (world_with_two_series "2024-03-01T09:30:00.000Z" "octocat" "hubot"
                   [day "2024-02-29" 1; day "2024-03-01" 0]
                   [day "2024-02-28" 1; day "2024-02-29" 0; day "2024-03-01" 0])
                "octocat") = Resolved stats /\ currentStreak stats = 1) /\
  (exists stats,
     outcome (fetchContributionStats
                (world_with_two_series "2024-03-01T09:30:00.000Z" "octocat" "hubot"
                   [day "2024-02-29" 1; day "2024-03-01" 0]
                   [day "2024-02-28" 1; day "2024-02-29" 0; day "2024-03-01" 0])
                "hubot") = Resolved stats /\ currentStreak stats = 0).
Proof.
  refine (proj2 (proj2
    (C4_current_streak_skips_only_today
       (world_with_two_series "2024-03-01T09:30:00.000Z" "octocat" "hubot"
          [day "2024-02-29" 1; day "2024-03-01" 0]
          [day "2024-02-28" 1; day "2024-02-29" 0; day "2024-03-01" 0])
       "octocat" "hubot" totals_2023_2024 "2024-03-01" "2024-02-29" "2024-02-28"
       1709251200000 _ _ _ _ _ _))).
  - reflexivity.
  - reflexivity.
  - reflexivity.
  - reflexivity.
  - apply delivers_payload.
  - apply delivers_payload_second. reflexivity.
Defined.

(** ** Dates: two strings that name the same day are the same string *)

Lemma digit_code c n : digit c = Some n -> Z.of_N (N_of_ascii c) = n + 48 /\ 0 <= n <= 9.
Proof.
  unfold digit. destruct (_ && _) eqn:E; [|discriminate].
  intros [= <-]. apply andb_prop in E as [E1 E2]. lia.
Qed.

Lemma digit_inj c1 c2 n : digit c1 = Some n -> digit c2 = Some n -> c1 = c2.
Proof.
  intros H1 H2. apply digit_code in H1 as [H1 _], H2 as [H2 _].
  rewrite <- (ascii_N_embedding c1), <- (ascii_N_embedding c2).
  f_equal. lia.
Qed.

Lemma year_length y :
  days_before_year (y + 1) = days_before_year y + (if is_leap y then 366 else 365).
Proof.
  unfold days_before_year, is_leap.
  destruct (Z.eqb_spec (y mod 4) 0), (Z.eqb_spec (y mod 100) 0), (Z.eqb_spec (y mod 400) 0);
    simpl; Z.div_mod_to_equations; lia.
Qed.

Lemma days_before_year_mono y y' : y <= y' -> days_before_year y <= days_before_year y'.
Proof.
  unfold days_before_year. intros. Z.div_mod_to_equations. lia.
Qed.

Lemma month_cases m : 1 <= m <= 12 ->
  m = 1 \/ m = 2 \/ m = 3 \/ m = 4 \/ m = 5 \/ m = 6 \/
  m = 7 \/ m = 8 \/ m = 9 \/ m = 10 \/ m = 11 \/ m = 12.
Proof. lia. Qed.

Lemma valid_ymd_spec y m d :
  valid_ymd y m d = true -> 1 <= m <= 12 /\ 1 <= d <= days_in_month y m.
Proof. unfold valid_ymd. intros H. repeat (apply andb_prop in H as [H ?]). lia. Qed.

Lemma day_of_year_bounds y m d :
  valid_ymd y m d = true ->
  0 <= days_before_month y m + (d - 1) < (if is_leap y then 366 else 365).
Proof.
  intros H. apply valid_ymd_spec in H as [Hm Hd].
  apply month_cases in Hm.
  unfold days_in_month, days_before_month in *.
  destruct (is_leap y);
    repeat (destruct Hm as [->|Hm]; [simpl in *; lia|]); subst; simpl in *; lia.
Qed.

Lemma day_of_year_inj y m d m' d' :
  valid_ymd y m d = true -> valid_ymd y m' d' = true ->
  days_before_month y m + d = days_before_month y m' + d' ->
  m = m' /\ d = d'.
Proof.
  intros H H'. apply valid_ymd_spec in H as [Hm Hd], H' as [Hm' Hd'].
  apply month_cases in Hm, Hm'.
  unfold days_in_month, days_before_month in *.
  destruct (is_leap y);
    repeat (destruct Hm as [->|Hm]);
    repeat (destruct Hm' as [->|Hm']); subst; simpl in *; lia.
Qed.

Lemma day_number_inj y m d y' m' d' :
  valid_ymd y m d = true -> valid_ymd y' m' d' = true ->
  day_number y m d = day_number y' m' d' ->
  y = y' /\ m = m' /\ d = d'.
Proof.
  intros H H' E. unfold day_number in E.
  pose proof (day_of_year_bounds _ _ _ H) as B.
  pose proof (day_of_year_bounds _ _ _ H') as B'.
  pose proof (year_length y) as L. pose proof (year_length y') as L'.
  assert (y = y') as <-.
  { destruct (Z.lt_trichotomy y y') as [Hlt|[Heq|Hgt]]; [|assumption|].
    - pose proof (days_before_year_mono (y + 1) y' ltac:(lia)). lia.
    - pose proof (days_before_year_mono (y' + 1) y ltac:(lia)). lia. }
  split; [reflexivity|].
  apply (day_of_year_inj y); [assumption..|lia].
Qed.


Lemma digits_inj a b a' b' x y x' y' :
  digit a = Some x -> digit b = Some y -> digit a' = Some x' -> digit b' = Some y' ->
  10 * x + y = 10 * x' + y' -> a = a' /\ b = b'.
Proof.
  intros Ha Hb Ha' Hb' E.
  pose proof (digit_code _ _ Ha) as [_ ?]. pose proof (digit_code _ _ Hb) as [_ ?].
  pose proof (digit_code _ _ Ha') as [_ ?]. pose proof (digit_code _ _ Hb') as [_ ?].
  assert (x = x') by lia. assert (y = y') by lia. subst.
  split; eapply digit_inj; eassumption.
Qed.

Lemma parse_ymd_inj s s' y m d :
  parse_ymd s = Some (y, m, d) -> parse_ymd s' = Some (y, m, d) -> s = s'.
Proof.
  unfold parse_ymd.
  destruct s as [|y1 [|y2 [|y3 [|y4 [|p1 [|m1 [|m2 [|p2 [|d1 [|d2 [|? ?]]]]]]]]]]];
    try discriminate.
  destruct s' as [|z1 [|z2 [|z3 [|z4 [|q1 [|n1 [|n2 [|q2 [|e1 [|e2 [|? ?]]]]]]]]]]];
    try discriminate.
  destruct (Ascii.eqb p1 _ && _) eqn:E; [|discriminate].
  destruct (Ascii.eqb q1 _ && _) eqn:E'; [|discriminate].
  apply andb_prop in E as [E1 E2], E' as [E1' E2'].
  apply Ascii.eqb_eq in E1, E2, E1', E2'. subst.
  destruct (digit y1) as [a|] eqn:Dy1; [|discriminate].
  destruct (digit y2) as [b|] eqn:Dy2; [|discriminate].
  destruct (digit y3) as [c|] eqn:Dy3; [|discriminate].
  destruct (digit y4) as [e|] eqn:Dy4; [|discriminate].
  destruct (digit m1) as [f|] eqn:Dm1; [|discriminate].
  destruct (digit m2) as [g|] eqn:Dm2; [|discriminate].
  destruct (digit d1) as [h|] eqn:Dd1; [|discriminate].
  destruct (digit d2) as [i|] eqn:Dd2; [|discriminate].
  intros [= <- <- <-].
  destruct (digit z1) as [a'|] eqn:Dz1; [|discriminate].
  destruct (digit z2) as [b'|] eqn:Dz2; [|discriminate].
  destruct (digit z3) as [c'|] eqn:Dz3; [|discriminate].
  destruct (digit z4) as [e'|] eqn:Dz4; [|discriminate].
  destruct (digit n1) as [f'|] eqn:Dn1; [|discriminate].
  destruct (digit n2) as [g'|] eqn:Dn2; [|discriminate].
  destruct (digit e1) as [h'|] eqn:De1; [|discriminate].
  destruct (digit e2) as [i'|] eqn:De2; [|discriminate].
  intros [= Hy Hm Hd].
  destruct (digits_inj _ _ _ _ _ _ _ _ Dm1 Dm2 Dn1 Dn2 ltac:(lia)) as [-> ->].
  destruct (digits_inj _ _ _ _ _ _ _ _ Dd1 Dd2 De1 De2 ltac:(lia)) as [-> ->].
  pose proof (digit_code _ _ Dy1) as [_ ?]. pose proof (digit_code _ _ Dy2) as [_ ?].
  pose proof (digit_code _ _ Dy3) as [_ ?]. pose proof (digit_code _ _ Dy4) as [_ ?].
  pose proof (digit_code _ _ Dz1) as [_ ?]. pose proof (digit_code _ _ Dz2) as [_ ?].
  pose proof (digit_code _ _ Dz3) as [_ ?]. pose proof (digit_code _ _ Dz4) as [_ ?].
  assert (a = a') by lia. assert (b = b') by lia.
  assert (c = c') by lia. assert (e = e') by lia. subst.
  rewrite (digit_inj _ _ _ Dy1 Dz1), (digit_inj _ _ _ Dy2 Dz2),
          (digit_inj _ _ _ Dy3 Dz3), (digit_inj _ _ _ Dy4 Dz4).
  reflexivity.
Qed.

Lemma Date_getTime_inj s s' t :
  Date_getTime s = Some t -> Date_getTime s' = Some t -> s = s'.
Proof.
  unfold Date_getTime.
  destruct (parse_ymd s) as [[[y m] d]|] eqn:P; [|discriminate].
  destruct (parse_ymd s') as [[[y' m'] d']|] eqn:P'; [|discriminate].
  destruct (valid_ymd y m d) eqn:V; [|discriminate].
  destruct (valid_ymd y' m' d') eqn:V'; [|discriminate].
  intros [= <-] [= E].
  assert (day_number y' m' d' = day_number y m d) as E'
    by (unfold ms_per_day in E; lia).
  destruct (day_number_inj _ _ _ _ _ _ V' V E') as (-> & -> & ->).
  eapply parse_ymd_inj; eassumption.
Qed.

(** ** The sorted series *)

#[local] Instance earlier_trans : Transitive earlier.
Proof.
  intros a b c (x & y & Ha & Hb & Hxy) (y' & z & Hb' & Hc & Hyz).
  rewrite Hb in Hb'. injection Hb' as <-. exists x, z. repeat split; [assumption..|lia].
Qed.

#[local] Instance earlier_antisym : AntiSymm (=) earlier.
Proof.
  intros a b (x & y & Ha & Hb & Hxy) (y' & x' & Hb' & Ha' & Hyx).
  rewrite Ha in Ha'. rewrite Hb in Hb'. injection Ha' as <-. injection Hb' as <-. lia.
Qed.

Lemma sort_insert_sorted x l :
  is_Some (time_of x) ->
  Forall (fun y => is_Some (time_of y) /\ time_of y <> time_of x) l ->
  StronglySorted earlier l ->
  StronglySorted earlier (sort_insert compare_dates x l).
Proof.
  intros [tx Hx] Hl Hs. induction Hs as [|y l Hs IH Hy]; simpl.
  - repeat constructor.
  - apply Forall_cons in Hl as [[[ty Hty] Hne] Hl].
    rewrite (sorts_before_dates _ _ _ _ Hty Hx).
    destruct (Z.ltb_spec (ty - tx) 0) as [Hlt|Hge].
    + constructor; [now apply IH|].
      rewrite sort_insert_perm. constructor; [|assumption].
      exists ty, tx. repeat split; [assumption..|lia].
    + assert (Hxy : earlier x y).
      { exists tx, ty. repeat split; [assumption..|].
        assert (ty <> tx) by (intros ->; apply Hne; congruence). lia. }
      constructor; [now constructor|].
      constructor; [assumption|].
      eapply Forall_impl; [exact Hy|]. intros z Hz. now transitivity y.
Qed.

Lemma distinct_times x l :
  is_Some (time_of x) -> calendar_days l -> date x ∉ map date l ->
  Forall (fun y => is_Some (time_of y) /\ time_of y <> time_of x) l.
Proof.
  intros [tx Hx] Hl Hnot. unfold calendar_days in Hl.
  rewrite Forall_forall in Hl |- *. intros y Hy. split; [now apply Hl|].
  intros E. apply Hnot. rewrite Hx in E.
  rewrite (Date_getTime_inj _ _ _ Hx E).
  apply list_elem_of_In, in_map, list_elem_of_In, Hy.
Qed.

(** With distinct calendar days the result of the sort is in strictly
    ascending order. *)
Lemma Array_sort_ascending l :
  calendar_days l -> NoDup (map date l) ->
  StronglySorted earlier (Array_sort compare_dates l).
Proof.
  intros Hl Hnd. induction l as [|x l IH]; simpl; [constructor|].
  apply Forall_cons in Hl as [Hx Hl]. apply NoDup_cons in Hnd as [Hnot Hnd].
  apply sort_insert_sorted; [assumption| |now apply IH].
  rewrite Array_sort_perm. now apply distinct_times.
Qed.

(** ** The two scans compared *)

Lemma forEach_day_snoc l x st :
  fold_left forEach_day (l ++ [x]) st = forEach_day (fold_left forEach_day l st) x.
Proof. now rewrite fold_left_app. Qed.

Lemma forEach_invariant l :
  0 <= fst (fold_left forEach_day l (0, 0)) /\
  snd (fold_left forEach_day l (0, 0)) = run_length (rev l) /\
  0 <= run_length (rev l).
Proof.
  induction l as [|x l IH] using rev_ind; simpl; [lia|].
  rewrite forEach_day_snoc, rev_app_distr; simpl.
  destruct (fold_left forEach_day l (0, 0)) as [longest temp]; simpl in *.
  destruct (0 <? count x)%N; simpl; lia.
Qed.

Lemma run_length_le_longest l : run_length (rev l) <= longest_of l.
Proof.
  unfold longest_of. pose proof (forEach_invariant l) as (_ & H & _).
  destruct (fold_left forEach_day l (0, 0)) as [longest temp]; simpl in *. lia.
Qed.

Lemma longest_of_snoc l x : longest_of l <= longest_of (l ++ [x]).
Proof.
  unfold longest_of. rewrite forEach_day_snoc.
  destruct (fold_left forEach_day l (0, 0)) as [longest temp]; simpl.
  destruct (0 <? count x)%N; lia.
Qed.

Lemma longest_of_nonneg l : 0 <= longest_of l.
Proof.
  pose proof (run_length_le_longest l). pose proof (forEach_invariant l). lia.
Qed.

Section BackwardScan.

Variable today : string.

Lemma active_loop_lower_bound l n : n <= active_loop today l n.
Proof.
  revert n. induction l as [|d l IH]; intros n; simpl; [lia|].
  destruct (0 <? count d)%N.
  - specialize (IH (n + 1)). lia.
  - destruct (String.eqb (date d) today); [apply IH|lia].
Qed.

Lemma active_loop_without_today l n :
  Forall (fun d => date d <> today) l ->
  active_loop today l n = n + run_length l.
Proof.
  intros H. revert n. induction H as [|d l Hd _ IH]; intros n; simpl; [lia|].
  destruct (0 <? count d)%N.
  - rewrite IH. lia.
  - apply String.eqb_neq in Hd. rewrite Hd. lia.
Qed.

(** In an ascending series without a date after today, only the last
    entry can be dated today. *)
Lemma only_last_is_today l e :
  StronglySorted earlier (l ++ [e]) -> none_after today (l ++ [e]) ->
  Forall (fun d => date d <> today) l.
Proof.
  intros Hs Hn. apply Forall_forall. intros d Hd E.
  assert (He : earlier d e).
  { eapply StronglySorted_app_1_elem_of; [exact Hs|exact Hd|]. now left. }
  destruct He as (x & y & Hx & Hy & Hlt).
  unfold none_after in Hn. rewrite Forall_app, Forall_singleton in Hn.
  destruct Hn as [_ (y' & now & Hy' & Hnow & Hle)].
  unfold time_of in *. rewrite E, Hnow in Hx. rewrite Hy in Hy'.
  injection Hx as <-. injection Hy' as <-. lia.
Qed.

Lemma current_le_longest l :
  StronglySorted earlier l -> none_after today l ->
  active_loop today (rev l) 0 <= longest_of l.
Proof.
  destruct l as [|e l _] using rev_ind; intros Hs Hn.
  - simpl. apply longest_of_nonneg.
  - pose proof (only_last_is_today _ _ Hs Hn) as Hl.
    apply Forall_rev in Hl.
    rewrite rev_app_distr; simpl.
    destruct (0 <? count e)%N eqn:Hc.
    + rewrite (active_loop_without_today _ _ Hl).
      pose proof (run_length_le_longest (l ++ [e])) as H.
      rewrite rev_app_distr in H; simpl in H. rewrite Hc in H. lia.
    + destruct (String.eqb (date e) today).
      * rewrite (active_loop_without_today _ _ Hl).
        pose proof (run_length_le_longest l). pose proof (longest_of_snoc l e). lia.
      * apply longest_of_nonneg.
Qed.

End BackwardScan.

Lemma year_totals_sum_nonneg (m : gmap string N) : 0 <= year_totals_sum m.
Proof.
  unfold year_totals_sum. rewrite map_fold_foldr.
  induction (map_to_list m) as [|[k v] l IH]; simpl in *; lia.
Qed.

Lemma none_after_calendar_days today l : none_after today l -> calendar_days l.
Proof.
  intros H. eapply Forall_impl; [exact H|].
  intros d (x & _ & Hx & _). now exists x.
Qed.

(** C9: for a series of pairwise distinct dates, none later than today,
    the current streak is at most the longest streak, and the total and
    both streaks are non-negative. *)
Theorem C9_current_streak_at_most_longest
    (w : World) (username : string) (m : gmap string N) (days : list ContributionDay) :
  delivers w username m days ->
  NoDup (map date days) ->
  none_after (today_of w) days ->
  exists stats,
    outcome (fetchContributionStats w username) = Resolved stats /\
    currentStreak stats <= longestStreak stats /\
    0 <= totalContributions stats /\
    0 <= longestStreak stats /\
    0 <= currentStreak stats.
Proof.
  intros H Hnd Hn. rewrite (fetchContributionStats_delivers _ _ _ _ H).
  eexists; split; [reflexivity|]. simpl.
  split; [|split; [|split]].
  - apply current_le_longest.
    + apply Array_sort_ascending; [|assumption]. eapply none_after_calendar_days, Hn.
    + unfold none_after. now apply Array_sort_Forall.
  - apply year_totals_sum_nonneg.
  - apply longest_of_nonneg.
  - apply active_loop_lower_bound.
Qed.

Lemma C9_current_streak_at_most_longest_witness :
  exists stats,
    outcome (fetchContributionStats
               (world_with_two_series "2024-03-01T09:30:00.000Z" "octocat" "hubot"
                  [day "2024-03-01" 0; day "2024-02-27" 3; day "2024-02-29" 2;
                   day "2024-02-28" 0; day "2024-02-26" 1]
                  [])
               "octocat") = Resolved stats /\
    currentStreak stats <= longestStreak stats /\
    0 <= totalContributions stats /\
    0 <= longestStreak stats /\
    0 <= currentStreak stats.
Proof.
  apply (C9_current_streak_at_most_longest
           (world_with_two_series "2024-03-01T09:30:00.000Z" "octocat" "hubot"
              [day "2024-03-01" 0; day "2024-02-27" 3; day "2024-02-29" 2;
               day "2024-02-28" 0; day "2024-02-26" 1]
              [])
           "octocat" totals_2023_2024
           [day "2024-03-01" 0; day "2024-02-27" 3; day "2024-02-29" 2;
            day "2024-02-28" 0; day "2024-02-26" 1]).
  - apply delivers_payload.
  - simpl. repeat (constructor; [rewrite ?elem_of_cons, elem_of_nil; intuition discriminate|]).
    constructor.
  - unfold none_after.
    repeat (constructor;
      [eexists _, _; split;
        [vm_compute; reflexivity
        |split; [vm_compute; reflexivity|vm_compute; discriminate]]|]).
    constructor.
Defined.

(** C10: two series that are permutations of each other, with pairwise
    distinct calendar dates, yield the same statistics. *)
Theorem C10_statistics_invariant_under_permutation
    (w : World) (u1 u2 : string) (m : gmap string N) (days1 days2 : list ContributionDay) :
  delivers w u1 m days1 ->
  delivers w u2 m days2 ->
  days1 ≡ₚ days2 ->
  calendar_days days1 ->
  NoDup (map date days1) ->
  outcome (fetchContributionStats w u1) = outcome (fetchContributionStats w u2).
Proof.
  intros H1 H2 Hp Hc Hnd.
  rewrite (fetchContributionStats_delivers _ _ _ _ H1).
  rewrite (fetchContributionStats_delivers _ _ _ _ H2).
  assert (E : Array_sort compare_dates days1 = Array_sort compare_dates days2).
  { apply (StronglySorted_unique earlier).
    - now apply Array_sort_ascending.
    - apply Array_sort_ascending.
      + unfold calendar_days. now rewrite <- Hp.
      + now rewrite <- Hp.
    - now rewrite !Array_sort_perm. }
  now rewrite E.
Qed.

Lemma C10_statistics_invariant_under_permutation_witness :
  outcome (fetchContributionStats
             (world_with_two_series "2024-03-01T09:30:00.000Z" "octocat" "hubot"
                [day "2024-02-28" 1; day "2024-02-29" 0; day "2024-02-27" 2]
                [day "2024-02-29" 0; day "2024-02-27" 2; day "2024-02-28" 1])
             "octocat")
  = outcome (fetchContributionStats
               (world_with_two_series "2024-03-01T09:30:00.000Z" "octocat" "hubot"
                  [day "2024-02-28" 1; day "2024-02-29" 0; day "2024-02-27" 2]
                  [day "2024-02-29" 0; day "2024-02-27" 2; day "2024-02-28" 1])
               "hubot").
Proof.
  apply (C10_statistics_invariant_under_permutation _ "octocat" "hubot" totals_2023_2024
           [day "2024-02-28" 1; day "2024-02-29" 0; day "2024-02-27" 2]
           [day "2024-02-29" 0; day "2024-02-27" 2; day "2024-02-28" 1]).
  - apply delivers_payload.
  - apply delivers_payload_second. reflexivity.
  - etransitivity; [apply Permutation_swap|]. apply perm_skip, Permutation_swap.
  - unfold calendar_days. repeat (constructor; [eexists; reflexivity|]). constructor.
  - simpl. repeat (constructor; [rewrite ?elem_of_cons, elem_of_nil; intuition discriminate|]).
    constructor.
Defined.

(** ** Aggregation *)

Lemma no_assessment_nil : no_assessment [].
Proof. constructor. Qed.

Lemma no_assessment_app evs1 evs2 :
  no_assessment evs1 -> no_assessment evs2 -> no_assessment (evs1 ++ evs2).
Proof. unfold no_assessment. rewrite Forall_app. auto. Qed.

Lemma runs_to_ret {A} (a : A) : runs_to (ret a) a.
Proof. intros tr. exists []. rewrite app_nil_r. split; [reflexivity|constructor]. Qed.

Lemma runs_to_bind {A B} (m : Async A) (k : A -> Async B) a b :
  runs_to m a -> runs_to (k a) b -> runs_to (bind m k) b.
Proof.
  intros Hm Hk tr. destruct (Hm tr) as (evs1 & E1 & N1).
  destruct (Hk (tr ++ evs1)) as (evs2 & E2 & N2).
  exists (evs1 ++ evs2). unfold bind. rewrite E1, E2, app_assoc.
  split; [reflexivity|now apply no_assessment_app].
Qed.

Lemma runs_to_Promise_all2 {A B} (ma : Async A) (mb : Async B) a b :
  runs_to ma a -> runs_to mb b -> runs_to (Promise_all2 ma mb) (a, b).
Proof.
  intros Ha Hb tr. destruct (Ha tr) as (evs1 & E1 & N1).
  destruct (Hb (tr ++ evs1)) as (evs2 & E2 & N2).
  exists (evs1 ++ evs2). unfold Promise_all2. rewrite E1, E2, app_assoc.
  split; [reflexivity|now apply no_assessment_app].
Qed.

Lemma runs_to_Promise_all {A B} (f : nat -> A -> Async B) (g : nat -> A -> B) l :
  (forall i x, runs_to (f i x) (g i x)) ->
  runs_to (Promise_all (imap f l)) (imap g l).
Proof.
  revert f g. induction l as [|x l IH]; intros f g H tr; simpl.
  - exists []. rewrite app_nil_r. split; [reflexivity|constructor].
  - destruct (H 0%nat x tr) as (evs1 & E1 & N1).
    destruct (IH (f ∘ S) (g ∘ S) (fun i => H (S i)) (tr ++ evs1)) as (evs2 & E2 & N2).
    exists (evs1 ++ evs2). rewrite E1, E2, app_assoc.
    split; [reflexivity|now apply no_assessment_app].
Qed.

Lemma runs_to_fetchGitHub {T} (net : Request -> FetchOutcome T) url token v :
  serves net (github_request url token) v -> runs_to (fetchGitHub net url token) v.
Proof.
  intros H tr. rewrite fetchGitHub_run, (fetchGitHub_serves _ _ _ _ H).
  eexists; split; [reflexivity|]. repeat constructor.
Qed.

Lemma getRepoReadme_run w owner repo token tr :
  getRepoReadme w owner repo token tr =
  (Resolved (readme_of w owner repo token),
   tr ++ [EvFetch (github_request (readme_url owner repo) token)]).
Proof.
  unfold readme_of, outcome, getRepoReadme, try_catch, bind.
  rewrite !fetchGitHub_run.
  destruct (outcome (fetchGitHub (github_readme w) (readme_url owner repo) token))
    as [data|e]; simpl; [|reflexivity].
  destruct (andb _ _); [|reflexivity].
  unfold settle. destruct (atob (remove_newlines (content data))); reflexivity.
Qed.

Lemma runs_to_getRepoReadme w owner repo token :
  runs_to (getRepoReadme w owner repo token) (readme_of w owner repo token).
Proof.
  intros tr. rewrite getRepoReadme_run. eexists; split; [reflexivity|].
  repeat constructor.
Qed.

Create HintDb runs discriminated.
#[local] Hint Resolve runs_to_ret runs_to_getRepoReadme runs_to_fetchGitHub : runs.

Lemma runs_to_attach_readme w user token i repo :
  runs_to (attach_readme w user token i repo) (attached w user token i repo).
Proof.
  unfold attach_readme, attached.
  destruct (i <? 3)%nat; [eapply runs_to_bind|]; eauto with runs.
Qed.

Lemma fetchContributionStats_run w username tr :
  exists evs,
    fetchContributionStats w username tr = (Resolved (stats_of w username), tr ++ evs) /\
    no_assessment evs.
Proof.
  unfold stats_of, outcome, fetchContributionStats, try_catch, bind.
  rewrite !fetch_run.
  destruct (contributions_api w (contributions_request username)) as [e|r]; simpl.
  - unfold emit, ret; simpl. rewrite <- app_assoc.
    eexists; split; [reflexivity|]. repeat constructor.
  - destruct (ok r); simpl.
    + unfold settle. destruct (json_body r) as [data|e]; simpl.
      * destruct (compute_stats_run (today_of w) data
                    (tr ++ [EvFetch (contributions_request username)])) as [o Ho].
        destruct (compute_stats_run (today_of w) data
                    ([] ++ [EvFetch (contributions_request username)])) as [o' Ho'].
        assert (o' = o) as ->.
        { revert Ho Ho'. unfold compute_stats, bind, Object_values, defined, ret, throw.
          destruct (total data); [|congruence].
          destruct (contributions data); congruence. }
        simpl in Ho'. rewrite Ho, Ho'.
        destruct o; unfold emit, ret; simpl; rewrite <- ?app_assoc;
          eexists; (split; [reflexivity|]); repeat constructor.
      * unfold emit, ret; simpl. rewrite <- app_assoc.
        eexists; split; [reflexivity|]. repeat constructor.
    + unfold ret. eexists; split; [reflexivity|]. repeat constructor.
Qed.

Lemma runs_to_fetchContributionStats w username :
  runs_to (fetchContributionStats w username) (stats_of w username).
Proof. intros tr. apply fetchContributionStats_run. Qed.

#[local] Hint Resolve runs_to_attach_readme runs_to_fetchContributionStats : runs.

(** When the profile and the repository list are served, the aggregation
    resolves: every repository is there, in order, the first three with
    what [getRepoReadme] gave for them. *)
Lemma runs_to_fetchFullProfileData w username token user repos :
  serves (github_user w) (github_request (user_url username) token) user ->
  serves (github_repos w) (github_request (repos_url username) token) repos ->
  runs_to (fetchFullProfileData w username token)
    {| pd_user := user;
       pd_repos := imap (attached w user token) repos;
       pd_stats := stats_of w username |}.
Proof.
  intros Hu Hr. unfold fetchFullProfileData.
  eapply runs_to_bind; [unfold getUserProfile; eauto with runs|].
  eapply runs_to_bind.
  { apply runs_to_Promise_all2; [unfold getUserRepos|]; eauto with runs. }
  simpl. eapply runs_to_bind; [|auto with runs].
  apply runs_to_Promise_all. auto with runs.
Qed.

Lemma runs_to_outcome {A} (m : Async A) a : runs_to m a -> outcome m = Resolved a.
Proof. intros H. unfold outcome. destruct (H []) as (evs & -> & _). reflexivity. Qed.

Lemma slice0_length n s : (String.length (slice0 n s) <= n)%nat.
Proof.
  revert s. induction n as [|n IH]; intros [|c s]; simpl; try lia.
  specialize (IH s). lia.
Qed.

(** A README is attached only when the endpoint served base64 content
    that decodes; it is then the first 2000 characters of the decoded
    text. *)
Lemma readme_of_Some w owner repo token s :
  readme_of w owner repo token = Some s ->
  exists data decoded,
    serves (github_readme w) (github_request (readme_url owner repo) token) data /\
    encoding data = "base64"%string /\
    atob (remove_newlines (content data)) = Resolved decoded /\
    s = slice0 2000 decoded.
Proof.
  unfold readme_of, outcome, getRepoReadme, try_catch, bind.
  rewrite fetchGitHub_run.
  destruct (outcome (fetchGitHub (github_readme w) (readme_url owner repo) token))
    as [data|e] eqn:Hf; simpl; [|discriminate].
  destruct (String.eqb (encoding data) "base64") eqn:He; simpl; [|discriminate].
  destruct (content data) as [|c rest] eqn:Hc; [discriminate|]. rewrite <- Hc.
  unfold settle. destruct (atob (remove_newlines (content data))) as [decoded|e] eqn:Ha;
    simpl; [|discriminate].
  intros [= <-]. exists data, decoded.
  split; [now apply fetchGitHub_resolved_serves|].
  split; [now apply String.eqb_eq|].
  split; [exact Ha|reflexivity].
Qed.

(** C7: when the profile and the repository list are served, the
    aggregation resolves whatever happens to the README requests. Every
    repository is returned at its index. The repository returned for one
    of the first three has the properties it came with, and its
    [readmeContent] is present and holds the result of its README
    request: [null] when that request was not served (no README, or any
    other failure), and otherwise at most 2000 characters, the beginning
    of the base64-decoded content. A repository at index 3 or beyond is
    returned as it came. *)
Theorem C7_readme_failures_do_not_abort
    (w : World) (username : string) (token : option string)
    (user : GitHubUser) (repos : list GitHubRepo) :
  serves (github_user w) (github_request (user_url username) token) user ->
  serves (github_repos w) (github_request (repos_url username) token) repos ->
  exists out,
    outcome (fetchFullProfileData w username token) = Resolved out /\
    length (pd_repos out) = length repos /\
    forall (i : nat) (repo : GitHubRepo),
      repos !! i = Some repo ->
      ((i < 3)%nat ->
         exists returned readme,
           pd_repos out !! i = Some returned /\
           readmeContent returned = Defined readme /\
           returned =
             {| repo_id := repo_id repo; repo_name := repo_name repo;
                full_name := full_name repo; repo_html_url := repo_html_url repo;
                description := description repo; fork := fork repo;
                repo_created_at := repo_created_at repo; updated_at := updated_at repo;
                pushed_at := pushed_at repo; homepage := homepage repo;
                size := size repo; stargazers_count := stargazers_count repo;
                watchers_count := watchers_count repo; language := language repo;
                forks_count := forks_count repo; archived := archived repo;
                disabled := disabled repo; open_issues_count := open_issues_count repo;
                topics := topics repo; readmeContent := Defined readme |} /\
           ((forall data,
               ~ serves (github_readme w)
                   (github_request (readme_url (login user) (repo_name repo)) token) data) ->
            readme = None) /\
           (forall s, readme = Some s ->
              (String.length s <= 2000)%nat /\
              exists data decoded,
                serves (github_readme w)
                  (github_request (readme_url (login user) (repo_name repo)) token) data /\
                encoding data = "base64"%string /\
                atob (remove_newlines (content data)) = Resolved decoded /\
                s = slice0 2000 decoded)) /\
      ((3 <= i)%nat -> pd_repos out !! i = Some repo).
Proof.
  intros Hu Hr. eexists. split.
  { apply runs_to_outcome, runs_to_fetchFullProfileData; eassumption. }
  simpl. split; [apply length_imap|].
  intros i repo Hi. rewrite list_lookup_imap, Hi. simpl. unfold attached. split.
  - intros Hlt. apply Nat.ltb_lt in Hlt. rewrite Hlt.
    exists (with_readmeContent repo (readme_of w (login user) (repo_name repo) token)),
           (readme_of w (login user) (repo_name repo) token).
    split; [reflexivity|]. split; [reflexivity|]. split; [reflexivity|]. split.
    + intros Hnone.
      destruct (readme_of w (login user) (repo_name repo) token) as [s|] eqn:E;
        [|reflexivity].
      apply readme_of_Some in E as (data & _ & Hs & _). now apply Hnone in Hs.
    + intros s E. pose proof (readme_of_Some _ _ _ _ _ E) as (data & decoded & H).
      split; [|now exists data, decoded].
      destruct H as (_ & _ & _ & ->). apply slice0_length.
  - intros Hge. apply Nat.ltb_ge in Hge. now rewrite Hge.
Qed.

Lemma C7_readme_failures_do_not_abort_witness :
  exists out,
    outcome (fetchFullProfileData
               (world_with_repos sample_user
                  [sample_repo "alpha"; sample_repo "beta"; sample_repo "gamma";
                   sample_repo "delta"]
                  "beta" hello_readme)
               "octocat" None) = Resolved out /\
    map repo_name (pd_repos out) = ["alpha"; "beta"; "gamma"; "delta"]%string /\
    map readmeContent (pd_repos out) =
      [Defined None; Defined (Some "Hello world"%string); Defined None; Undefined].
Proof.
  destruct (C7_readme_failures_do_not_abort
              (world_with_repos sample_user
                 [sample_repo "alpha"; sample_repo "beta"; sample_repo "gamma";
                  sample_repo "delta"]
                 "beta" hello_readme)
              "octocat" None sample_user
              [sample_repo "alpha"; sample_repo "beta"; sample_repo "gamma";
               sample_repo "delta"])
    as (out & Hout & _ & _).
  - eexists. repeat split; reflexivity.
  - eexists. repeat split; reflexivity.
  - exists out. split; [exact Hout|].
    assert (E : outcome (fetchFullProfileData
               (world_with_repos sample_user
                  [sample_repo "alpha"; sample_repo "beta"; sample_repo "gamma";
                   sample_repo "delta"]
                  "beta" hello_readme)
               "octocat" None)
            = Resolved
                {| pd_user := sample_user;
                   pd_repos :=
                     [with_readmeContent (sample_repo "alpha") None;
                      with_readmeContent (sample_repo "beta") (Some "Hello world"%string);
                      with_readmeContent (sample_repo "gamma") None;
                      sample_repo "delta"];
                   pd_stats := zero_stats |}) by (vm_compute; reflexivity).
    rewrite E in Hout. injection Hout as <-. split; reflexivity.
Defined.

(** ** The pipeline on an empty portfolio *)

Lemma view_after_failure tr msg :
  view_after (tr ++ [EvConsole msg; EvSetError (Some msg); EvSetState ERROR])
  = {| view_state := ERROR; view_error := Some msg |}.
Proof. unfold view_after. now rewrite fold_left_app. Qed.

(** C3: when the repository list is fetched and is empty, the pipeline
    stops with the failure "no public repositories": the view is in the
    error state with that message, and neither [analyzeProfile] nor the
    model service occurs in the trace. *)
Theorem C3_empty_portfolio_stops_before_assessment
    (w : World) (targetUser token : string) (user : GitHubUser) :
  serves (github_user w)
    (github_request (user_url targetUser) (token_or_undefined token)) user ->
  serves (github_repos w)
    (github_request (repos_url targetUser) (token_or_undefined token)) [] ->
  outcome (handleAnalyze w targetUser token) = Resolved tt /\
  view_after (trace_of (handleAnalyze w targetUser token))
    = {| view_state := ERROR; view_error := Some no_repositories_message |} /\
  no_assessment (trace_of (handleAnalyze w targetUser token)).
Proof.
  intros Hu Hr.
  destruct (runs_to_fetchFullProfileData _ _ _ _ _ Hu Hr
              [EvSetState FETCHING_GITHUB; EvSetError None]) as (evs & E & N).
  unfold outcome, trace_of, handleAnalyze, try_catch, bind, emit; simpl.
  rewrite E; simpl. unfold throw; simpl.
  split; [reflexivity|]. split.
  - rewrite <- !app_assoc. simpl.
    exact (view_after_failure (EvSetState FETCHING_GITHUB :: EvSetError None :: evs)
             no_repositories_message).
  - rewrite <- !app_assoc. simpl. repeat constructor.
    apply no_assessment_app; [exact N|]. repeat constructor.
Qed.

Lemma C3_empty_portfolio_stops_before_assessment_witness :
  outcome (handleAnalyze (world_with_repos sample_user [] "beta" hello_readme)
             "octocat" EmptyString) = Resolved tt /\
  view_after (trace_of (handleAnalyze (world_with_repos sample_user [] "beta" hello_readme)
                          "octocat" EmptyString))
    = {| view_state := ERROR; view_error := Some no_repositories_message |} /\
  no_assessment (trace_of (handleAnalyze (world_with_repos sample_user [] "beta" hello_readme)
                             "octocat" EmptyString)).
Proof.
  apply (C3_empty_portfolio_stops_before_assessment
           (world_with_repos sample_user [] "beta" hello_readme)
           "octocat" EmptyString sample_user).
  - eexists. repeat split; reflexivity.
  - eexists. repeat split; reflexivity.
Defined.

(** The aggregation itself resolves on an empty repository list; the
    failure is raised by [handleAnalyze]. *)
Lemma fetchFullProfileData_empty_resolves w username token user :
  serves (github_user w) (github_request (user_url username) token) user ->
  serves (github_repos w) (github_request (repos_url username) token) [] ->
  outcome (fetchFullProfileData w username token)
  = Resolved {| pd_user := user; pd_repos := []; pd_stats := stats_of w username |}.
Proof.
  intros Hu Hr. apply runs_to_outcome.
  apply (runs_to_fetchFullProfileData _ _ _ _ _ Hu Hr).
Qed.

(** * Further properties *)

(** ** Computations do not read the trace *)

Section Tame.

Context (P : Event -> Prop).

Lemma tame_ret {A} (a : A) : tame P (ret a).
Proof. split; [intros tr; unfold ret, outcome, trace_of; simpl; now rewrite app_nil_r|constructor]. Qed.

Lemma tame_throw {A} e : tame P (throw (A := A) e).
Proof. split; [intros tr; unfold throw, outcome, trace_of; simpl; now rewrite app_nil_r|constructor]. Qed.

Lemma tame_settle {A} (o : Outcome A) : tame P (settle o).
Proof. split; [intros tr; unfold settle, outcome, trace_of; simpl; now rewrite app_nil_r|constructor]. Qed.

Lemma tame_emit ev : P ev -> tame P (emit ev).
Proof. intros H. split; [intros tr; reflexivity|repeat constructor; exact H]. Qed.

Lemma bind_run {A B} (m : Async A) (k : A -> Async B) :
  oblivious m -> (forall a, oblivious (k a)) ->
  forall tr, bind m k tr =
    (match outcome m with Resolved a => outcome (k a) | Rejected e => Rejected e end,
     tr ++ trace_of m ++
       match outcome m with Resolved a => trace_of (k a) | Rejected _ => [] end).
Proof.
  intros Hm Hk tr. unfold bind. rewrite (Hm tr).
  destruct (outcome m) as [a|e].
  - rewrite (Hk a). now rewrite app_assoc.
  - now rewrite app_nil_r.
Qed.

Lemma tame_bind {A B} (m : Async A) (k : A -> Async B) :
  tame P m -> (forall a, tame P (k a)) -> tame P (bind m k).
Proof.
  intros [Hm Pm] Hk.
  assert (Ok : forall a, oblivious (k a)) by (intros a; apply Hk).
  split.
  - intros tr. rewrite (bind_run m k Hm Ok tr).
    unfold outcome, trace_of. rewrite (bind_run m k Hm Ok []). reflexivity.
  - unfold trace_of. rewrite (bind_run m k Hm Ok []). simpl.
    apply Forall_app. split; [exact Pm|].
    destruct (outcome m) as [a|e]; [apply Hk|constructor].
Qed.

Lemma try_catch_run {A} (m : Async A) (h : JsError -> Async A) :
  oblivious m -> (forall e, oblivious (h e)) ->
  forall tr, try_catch m h tr =
    (match outcome m with Resolved a => Resolved a | Rejected e => outcome (h e) end,
     tr ++ trace_of m ++
       match outcome m with Resolved _ => [] | Rejected e => trace_of (h e) end).
Proof.
  intros Hm Hh tr. unfold try_catch. rewrite (Hm tr).
  destruct (outcome m) as [a|e].
  - now rewrite app_nil_r.
  - rewrite (Hh e). now rewrite app_assoc.
Qed.

Lemma tame_try_catch {A} (m : Async A) (h : JsError -> Async A) :
  tame P m -> (forall e, tame P (h e)) -> tame P (try_catch m h).
Proof.
  intros [Hm Pm] Hh.
  assert (Oh : forall e, oblivious (h e)) by (intros e; apply Hh).
  split.
  - intros tr. rewrite (try_catch_run m h Hm Oh tr).
    unfold outcome, trace_of. rewrite (try_catch_run m h Hm Oh []). reflexivity.
  - unfold trace_of. rewrite (try_catch_run m h Hm Oh []). simpl.
    apply Forall_app. split; [exact Pm|].
    destruct (outcome m) as [a|e]; [constructor|apply Hh].
Qed.

Lemma Promise_all2_run {A B} (a : Async A) (b : Async B) :
  oblivious a -> oblivious b ->
  forall tr, Promise_all2 a b tr =
    (match outcome a, outcome b with
     | Resolved x, Resolved y => Resolved (x, y)
     | Rejected e, _ => Rejected e
     | _, Rejected e => Rejected e
     end, tr ++ trace_of a ++ trace_of b).
Proof.
  intros Ha Hb tr. unfold Promise_all2. rewrite (Ha tr), (Hb (tr ++ trace_of a)).
  now rewrite app_assoc.
Qed.

Lemma tame_Promise_all2 {A B} (a : Async A) (b : Async B) :
  tame P a -> tame P b -> tame P (Promise_all2 a b).
Proof.
  intros [Ha Pa] [Hb Pb]. split.
  - intros tr. rewrite (Promise_all2_run a b Ha Hb tr).
    unfold outcome, trace_of. rewrite (Promise_all2_run a b Ha Hb []). reflexivity.
  - unfold trace_of. rewrite (Promise_all2_run a b Ha Hb []). simpl.
    apply Forall_app. auto.
Qed.

Lemma Promise_all_trace {A} (ps : list (Async A)) :
  Forall oblivious ps ->
  forall tr, snd (Promise_all ps tr) = tr ++ concat (map trace_of ps).
Proof.
  induction 1 as [|p ps Hp _ IH]; intros tr; simpl.
  - now rewrite app_nil_r.
  - rewrite (Hp tr). specialize (IH (tr ++ trace_of p)).
    destruct (Promise_all ps (tr ++ trace_of p)) as [rs tr2]. simpl in *.
    now rewrite IH, app_assoc.
Qed.

Lemma Promise_all_outcome {A} (ps : list (Async A)) :
  Forall oblivious ps ->
  forall tr, fst (Promise_all ps tr) = outcome (Promise_all ps).
Proof.
  unfold outcome. induction 1 as [|p ps Hp _ IH]; intros tr; simpl; [reflexivity|].
  rewrite (Hp tr), (Hp []).
  pose proof (IH (tr ++ trace_of p)) as H1. pose proof (IH ([] ++ trace_of p)) as H2.
  destruct (Promise_all ps (tr ++ trace_of p)) as [rs tr2].
  destruct (Promise_all ps ([] ++ trace_of p)) as [rs' tr2'].
  simpl in *. now rewrite H1, H2.
Qed.

Lemma tame_Promise_all {A} (ps : list (Async A)) :
  Forall (tame P) ps -> tame P (Promise_all ps).
Proof.
  intros H.
  assert (Ho : Forall oblivious ps) by (eapply Forall_impl; [exact H|]; now intros p [? _]).
  split.
  - intros tr. rewrite (surjective_pairing (Promise_all ps tr)).
    rewrite Promise_all_outcome, Promise_all_trace by assumption.
    unfold trace_of. rewrite Promise_all_trace by assumption. reflexivity.
  - unfold trace_of. rewrite Promise_all_trace by assumption. simpl.
    apply Forall_concat, Forall_map. 
    eapply Forall_impl; [exact H|]. now intros p [_ ?].
Qed.

End Tame.

Lemma outcome_bind {A B} (m : Async A) (k : A -> Async B) :
  oblivious m -> (forall a, oblivious (k a)) ->
  outcome (bind m k) =
  match outcome m with Resolved a => outcome (k a) | Rejected e => Rejected e end.
Proof. intros Hm Hk. unfold outcome at 1. now rewrite bind_run. Qed.

Lemma trace_of_bind {A B} (m : Async A) (k : A -> Async B) :
  oblivious m -> (forall a, oblivious (k a)) ->
  trace_of (bind m k) =
  trace_of m ++ match outcome m with Resolved a => trace_of (k a) | Rejected _ => [] end.
Proof. intros Hm Hk. unfold trace_of at 1. now rewrite bind_run. Qed.

Lemma outcome_try_catch {A} (m : Async A) (h : JsError -> Async A) :
  oblivious m -> (forall e, oblivious (h e)) ->
  outcome (try_catch m h) =
  match outcome m with Resolved a => Resolved a | Rejected e => outcome (h e) end.
Proof. intros Hm Hh. unfold outcome at 1. now rewrite try_catch_run. Qed.

Lemma trace_of_try_catch {A} (m : Async A) (h : JsError -> Async A) :
  oblivious m -> (forall e, oblivious (h e)) ->
  trace_of (try_catch m h) =
  trace_of m ++ match outcome m with Resolved _ => [] | Rejected e => trace_of (h e) end.
Proof. intros Hm Hh. unfold trace_of at 1. now rewrite try_catch_run. Qed.

Lemma outcome_Promise_all2 {A B} (a : Async A) (b : Async B) :
  oblivious a -> oblivious b ->
  outcome (Promise_all2 a b) =
  match outcome a, outcome b with
  | Resolved x, Resolved y => Resolved (x, y)
  | Rejected e, _ => Rejected e
  | _, Rejected e => Rejected e
  end.
Proof. intros Ha Hb. unfold outcome at 1. now rewrite Promise_all2_run. Qed.

Lemma trace_of_Promise_all2 {A B} (a : Async A) (b : Async B) :
  oblivious a -> oblivious b ->
  trace_of (Promise_all2 a b) = trace_of a ++ trace_of b.
Proof. intros Ha Hb. unfold trace_of at 1. now rewrite Promise_all2_run. Qed.

Lemma trace_of_Promise_all {A} (ps : list (Async A)) :
  Forall oblivious ps -> trace_of (Promise_all ps) = concat (map trace_of ps).
Proof. intros H. unfold trace_of at 1. now rewrite Promise_all_trace. Qed.

Lemma tame_oblivious {A} P (m : Async A) : tame P m -> oblivious m.
Proof. now intros [H _]. Qed.

(** ** The events of the services *)

Lemma tame_fetch {T} (net : Request -> FetchOutcome T) req :
  tame is_network_event (fetch net req).
Proof.
  split.
  - intros tr. unfold outcome, trace_of. now rewrite !fetch_run.
  - unfold trace_of. rewrite fetch_run. repeat constructor.
Qed.

Lemma tame_fetchGitHub {T} (net : Request -> FetchOutcome T) url token :
  tame is_network_event (fetchGitHub net url token).
Proof.
  split.
  - intros tr. unfold trace_of. now rewrite !fetchGitHub_run.
  - unfold trace_of. rewrite fetchGitHub_run. repeat constructor.
Qed.

Lemma trace_of_fetchGitHub {T} (net : Request -> FetchOutcome T) url token :
  trace_of (fetchGitHub net url token) = [EvFetch (github_request url token)].
Proof. unfold trace_of. now rewrite fetchGitHub_run. Qed.

Lemma tame_compute_stats today data : tame is_network_event (compute_stats today data).
Proof.
  unfold compute_stats, Object_values, defined.
  destruct (total data); [|apply tame_bind; [apply tame_throw|intros; apply tame_bind; [|intros; apply tame_ret]]].
  - apply tame_bind; [apply tame_ret|]. intros values.
    destruct (contributions data).
    + apply tame_bind; [apply tame_ret|intros; apply tame_ret].
    + apply tame_bind; [apply tame_throw|intros; apply tame_ret].
  - destruct (contributions data); [apply tame_ret|apply tame_throw].
Qed.

Lemma tame_fetchContributionStats w username :
  tame is_network_event (fetchContributionStats w username).
Proof.
  unfold fetchContributionStats. apply tame_try_catch.
  - apply tame_bind; [apply tame_fetch|]. intros r.
    destruct (negb (ok r)); [apply tame_ret|].
    apply tame_bind; [apply tame_settle|]. intros data. apply tame_compute_stats.
  - intros e. apply tame_bind; [apply tame_emit; exact I|intros; apply tame_ret].
Qed.

Lemma fetch_urls_fetchContributionStats w username :
  fetch_urls (trace_of (fetchContributionStats w username))
  = [req_url (contributions_request username)].
Proof.
  destruct (fetchContributionStats_run w username []) as (evs & E & _).
  unfold trace_of, fetchContributionStats, try_catch, bind in *.
  rewrite fetch_run in *.
  destruct (contributions_api w (contributions_request username)) as [e|r]; simpl.
  - reflexivity.
  - destruct (ok r); simpl; [|reflexivity].
    unfold settle. destruct (json_body r) as [data|e]; simpl; [|reflexivity].
    destruct (compute_stats_run (today_of w) data [EvFetch (contributions_request username)])
      as [o Ho].
    rewrite Ho. destruct o; reflexivity.
Qed.

Lemma tame_getRepoReadme w owner repo token :
  tame is_network_event (getRepoReadme w owner repo token).
Proof.
  split.
  - intros tr. unfold outcome, trace_of. now rewrite !getRepoReadme_run.
  - unfold trace_of. rewrite getRepoReadme_run. repeat constructor.
Qed.

Lemma tame_attach_readme w user token i repo :
  tame is_network_event (attach_readme w user token i repo).
Proof.
  unfold attach_readme. destruct (i <? 3)%nat; [|apply tame_ret].
  apply tame_bind; [apply tame_getRepoReadme|intros; apply tame_ret].
Qed.

Lemma trace_of_attach_readme w user token i repo :
  trace_of (attach_readme w user token i repo) =
  if (i <? 3)%nat
  then [EvFetch (github_request (readme_url (login user) (repo_name repo)) token)]
  else [].
Proof.
  unfold trace_of, attach_readme, bind. destruct (i <? 3)%nat; [|reflexivity].
  now rewrite getRepoReadme_run.
Qed.

Lemma tame_attach_all w user token repos :
  tame is_network_event (Promise_all (imap (attach_readme w user token) repos)).
Proof.
  apply tame_Promise_all. apply Forall_forall. intros p Hp.
  apply elem_of_lookup_imap in Hp as (i & x & -> & _). apply tame_attach_readme.
Qed.

Lemma tame_fetchFullProfileData w username token :
  tame is_network_event (fetchFullProfileData w username token).
Proof.
  unfold fetchFullProfileData.
  apply tame_bind; [apply tame_fetchGitHub|]. intros user.
  apply tame_bind.
  { apply tame_Promise_all2; [apply tame_fetchGitHub|apply tame_fetchContributionStats]. }
  intros [repos stats].
  apply tame_bind; [apply tame_attach_all|intros; apply tame_ret].
Qed.

Lemma readme_requests w user token repos (k : nat) :
  concat (map trace_of (imap (fun i => attach_readme w user token (k + i)) repos)) =
  map (fun r => EvFetch (github_request (readme_url (login user) (repo_name r)) token))
      (take (3 - k) repos).
Proof.
  revert k. induction repos as [|r repos IH]; intros k; simpl.
  - now rewrite take_nil.
  - rewrite trace_of_attach_readme.
    rewrite (imap_ext _ (fun i => attach_readme w user token (S k + i)))
      by (intros; simpl; f_equal; lia).
    rewrite IH. rewrite Nat.add_0_r.
    destruct (Nat.ltb_spec k 3) as [Hlt|Hge].
    + replace (3 - k)%nat with (S (3 - S k)) by lia. reflexivity.
    + replace (3 - k)%nat with 0%nat by lia. replace (3 - S k)%nat with 0%nat by lia.
      reflexivity.
Qed.

Lemma readme_requests_of_map w user token repos :
  concat (map trace_of (imap (attach_readme w user token) repos)) =
  map (fun r => EvFetch (github_request (readme_url (login user) (repo_name r)) token))
      (take 3 repos).
Proof. exact (readme_requests w user token repos 0). Qed.

Lemma fetch_urls_requests {A} (url : A -> string) token (l : list A) :
  fetch_urls (map (fun x => EvFetch (github_request (url x) token)) l) = map url l.
Proof.
  unfold fetch_urls. induction l as [|x l IH]; [reflexivity|].
  cbn. f_equal. exact IH.
Qed.

(** ** The requests and the failures of the aggregation *)

Lemma fetchFullProfileData_run w username token tr :
  fetchFullProfileData w username token tr =
  (outcome (fetchFullProfileData w username token),
   tr ++ trace_of (fetchFullProfileData w username token)).
Proof. apply tame_fetchFullProfileData. Qed.

(** X3: when the profile request fails, [fetchFullProfileData] rejects
    with the same error and has sent that one request only: no
    repository, contribution or README request is made. *)
Theorem aggregation_stops_at_profile_failure
    (w : World) (username : string) (token : option string) (e : JsError) :
  outcome (getUserProfile w username token) = Rejected e ->
  outcome (fetchFullProfileData w username token) = Rejected e /\
  trace_of (fetchFullProfileData w username token)
  = [EvFetch (github_request (user_url username) token)].
Proof.
  intros H. unfold outcome, trace_of, fetchFullProfileData.
  rewrite bind_run.
  - rewrite H. unfold getUserProfile. rewrite trace_of_fetchGitHub. split; reflexivity.
  - apply tame_fetchGitHub.
  - intros user. apply (tame_bind is_network_event).
    + apply tame_Promise_all2; [apply tame_fetchGitHub|apply tame_fetchContributionStats].
    + intros [repos stats].
      apply tame_bind; [apply tame_attach_all|intros; apply tame_ret].
Qed.

Lemma oblivious_after_profile w username token user :
  oblivious
    (await (repos, stats) :=
       Promise_all2 (getUserRepos w username token) (fetchContributionStats w username) in
     await reposWithReadmes := Promise_all (imap (attach_readme w user token) repos) in
     ret {| pd_user := user; pd_repos := reposWithReadmes; pd_stats := stats |}).
Proof.
  apply (tame_oblivious is_network_event), tame_bind.
  - apply tame_Promise_all2; [apply tame_fetchGitHub|apply tame_fetchContributionStats].
  - intros [repos stats].
    apply tame_bind; [apply tame_attach_all|intros; apply tame_ret].
Qed.

Lemma outcome_fetchContributionStats w username :
  outcome (fetchContributionStats w username) = Resolved (stats_of w username).
Proof.
  unfold outcome. destruct (fetchContributionStats_run w username []) as (evs & -> & _).
  reflexivity.
Qed.

Lemma aggregation_after_profile w username token user :
  outcome (getUserProfile w username token) = Resolved user ->
  outcome (fetchFullProfileData w username token) =
    match outcome (getUserRepos w username token) with
    | Resolved repos =>
        match outcome (Promise_all (imap (attach_readme w user token) repos)) with
        | Resolved rs =>
            Resolved {| pd_user := user; pd_repos := rs; pd_stats := stats_of w username |}
        | Rejected e => Rejected e
        end
    | Rejected e => Rejected e
    end /\
  trace_of (fetchFullProfileData w username token) =
    EvFetch (github_request (user_url username) token) ::
    EvFetch (github_request (repos_url username) token) ::
    trace_of (fetchContributionStats w username) ++
    match outcome (getUserRepos w username token) with
    | Resolved repos => trace_of (Promise_all (imap (attach_readme w user token) repos))
    | Rejected e => []
    end.
Proof.
  intros H.
  assert (O1 : oblivious (getUserProfile w username token))
    by apply (tame_oblivious is_network_event), tame_fetchGitHub.
  assert (O2 : oblivious (Promise_all2 (getUserRepos w username token)
                            (fetchContributionStats w username))).
  { apply (tame_oblivious is_network_event), tame_Promise_all2;
      [apply tame_fetchGitHub|apply tame_fetchContributionStats]. }
  assert (O3 : forall rs : list GitHubRepo * ContributionStats,
             oblivious
               (let '(repos, stats) := rs in
                await reposWithReadmes :=
                  Promise_all (imap (attach_readme w user token) repos) in
                ret {| pd_user := user; pd_repos := reposWithReadmes; pd_stats := stats |})).
  { intros [repos stats]. apply (tame_oblivious is_network_event), tame_bind;
      [apply tame_attach_all|intros; apply tame_ret]. }
  unfold fetchFullProfileData.
  rewrite outcome_bind, trace_of_bind, H
    by (assumption || intros; apply oblivious_after_profile).
  rewrite outcome_bind, trace_of_bind by assumption.
  rewrite outcome_Promise_all2, trace_of_Promise_all2
    by (apply (tame_oblivious is_network_event);
        apply tame_fetchGitHub || apply tame_fetchContributionStats).
  rewrite outcome_fetchContributionStats.
  unfold getUserProfile at 1, getUserRepos at 3. rewrite !trace_of_fetchGitHub.
  destruct (outcome (getUserRepos w username token)) as [repos|e]; simpl.
  - rewrite outcome_bind, trace_of_bind
      by (intros; apply (tame_oblivious is_network_event);
          apply tame_attach_all || apply tame_ret).
    destruct (outcome (Promise_all (imap (attach_readme w user token) repos))); simpl;
      rewrite ?app_nil_r; split; reflexivity.
  - rewrite !app_nil_r. split; reflexivity.
Qed.

(** X4: when the profile is there and the repository-list request fails,
    [fetchFullProfileData] rejects with the error of that request; the
    contribution request was sent along with it, and no README request
    is made. *)
Theorem aggregation_stops_at_repository_failure
    (w : World) (username : string) (token : option string)
    (user : GitHubUser) (e : JsError) :
  outcome (getUserProfile w username token) = Resolved user ->
  outcome (getUserRepos w username token) = Rejected e ->
  outcome (fetchFullProfileData w username token) = Rejected e /\
  fetch_urls (trace_of (fetchFullProfileData w username token))
  = [user_url username; repos_url username; req_url (contributions_request username)].
Proof.
  intros Hu Hr. destruct (aggregation_after_profile _ _ _ _ Hu) as [Ho Ht].
  rewrite Ho, Ht, Hr. split; [reflexivity|].
  rewrite app_nil_r. unfold fetch_urls. simpl. f_equal. f_equal.
  apply fetch_urls_fetchContributionStats.
Qed.

(** X5: when the profile and the repository list are there, the
    aggregation sends, in this order, the profile request, the
    repository-list request, the contribution request, and one README
    request for each of the first three repositories, under the login of
    the profile. *)
Theorem aggregation_requests
    (w : World) (username : string) (token : option string)
    (user : GitHubUser) (repos : list GitHubRepo) :
  outcome (getUserProfile w username token) = Resolved user ->
  outcome (getUserRepos w username token) = Resolved repos ->
  fetch_urls (trace_of (fetchFullProfileData w username token))
  = [user_url username; repos_url username; req_url (contributions_request username)]
    ++ map (fun r => readme_url (login user) (repo_name r)) (take 3 repos).
Proof.
  intros Hu Hr. destruct (aggregation_after_profile _ _ _ _ Hu) as [_ Ht].
  rewrite Ht, Hr. unfold fetch_urls. simpl. f_equal. f_equal.
  rewrite omap_app. fold (fetch_urls (trace_of (fetchContributionStats w username))).
  rewrite fetch_urls_fetchContributionStats. simpl. f_equal.
  rewrite trace_of_Promise_all.
  - rewrite readme_requests_of_map.
    apply (fetch_urls_requests (fun r => readme_url (login user) (repo_name r))).
  - apply Forall_forall. intros p Hp.
    apply elem_of_lookup_imap in Hp as (i & x & -> & _).
    apply (tame_oblivious is_network_event), tame_attach_readme.
Qed.

Lemma aggregation_stops_at_profile_failure_witness :
  outcome (fetchFullProfileData world_profile_missing "ghost" None)
    = Rejected (mkError Error not_found_message) /\
  trace_of (fetchFullProfileData world_profile_missing "ghost" None)
    = [EvFetch (github_request (user_url "ghost") None)].
Proof.
  apply (aggregation_stops_at_profile_failure world_profile_missing "ghost" None).
  reflexivity.
Defined.

Lemma aggregation_stops_at_repository_failure_witness :
  outcome (fetchFullProfileData (world_repos_refused sample_user 403 "Forbidden")
             "octocat" None)
    = Rejected (mkError Error rate_limit_message) /\
  fetch_urls (trace_of (fetchFullProfileData (world_repos_refused sample_user 403 "Forbidden")
                          "octocat" None))
    = [user_url "octocat"; repos_url "octocat"; req_url (contributions_request "octocat")].
Proof.
  apply (aggregation_stops_at_repository_failure
           (world_repos_refused sample_user 403 "Forbidden") "octocat" None sample_user);
    reflexivity.
Defined.

Lemma aggregation_requests_witness :
  fetch_urls (trace_of (fetchFullProfileData
                          (world_with_repos sample_user
                             [sample_repo "alpha"; sample_repo "beta"; sample_repo "gamma";
                              sample_repo "delta"]
                             "beta" hello_readme)
                          "octocat" None))
  = [user_url "octocat"; repos_url "octocat"; req_url (contributions_request "octocat");
     readme_url "octocat" "alpha"; readme_url "octocat" "beta";
     readme_url "octocat" "gamma"].
Proof.
  apply (aggregation_requests
           (world_with_repos sample_user
              [sample_repo "alpha"; sample_repo "beta"; sample_repo "gamma";
               sample_repo "delta"]
              "beta" hello_readme)
           "octocat" None sample_user
           [sample_repo "alpha"; sample_repo "beta"; sample_repo "gamma";
            sample_repo "delta"]); reflexivity.
Defined.

(** ** The assessment, and the run of [handleAnalyze] *)

Lemma tame_weaken {A} (P Q : Event -> Prop) (m : Async A) :
  (forall ev, P ev -> Q ev) -> tame P m -> tame Q m.
Proof. intros H [Ho Hp]. split; [exact Ho|]. eapply Forall_impl; eauto. Qed.

Lemma tame_generate w req :
  tame (fun ev => is_assessment_event ev = true) (generate w req).
Proof.
  unfold generate. apply tame_bind; [now apply tame_emit|]. intros _.
  destruct (generateContent w req); [apply tame_throw|apply tame_ret].
Qed.

Lemma tame_analyzeProfile w user repos :
  tame (fun ev => is_assessment_event ev = true) (analyzeProfile w user repos).
Proof.
  unfold analyzeProfile. apply tame_bind; [now apply tame_emit|]. intros _.
  destruct (negb (truthy (env_API_KEY w))); [apply tame_throw|].
  apply tame_bind; [apply tame_generate|]. intros [[|c rest]|]; try apply tame_throw.
  destruct (JSON_parse (String c rest)); [apply tame_ret|apply tame_throw].
Qed.

Lemma trace_of_analyzeProfile w user repos :
  trace_of (analyzeProfile w user repos) =
  EvEnterAnalyzeProfile ::
  (if truthy (env_API_KEY w) then [EvGenerateContent (assessment_request user repos)]
   else []).
Proof.
  unfold trace_of, analyzeProfile, generate, bind, emit; simpl.
  destruct (truthy (env_API_KEY w)); simpl; [|reflexivity].
  destruct (generateContent w (assessment_request user repos)) as [e|[[|c rest]|]];
    simpl; try reflexivity.
  destruct (JSON_parse (String c rest)); reflexivity.
Qed.

Lemma analyzeProfile_resolved w user repos v :
  outcome (analyzeProfile w user repos) = Resolved v ->
  truthy (env_API_KEY w) = true /\
  exists text,
    generateContent w (assessment_request user repos) = GenResponds (Some text) /\
    JSON_parse text = Some v.
Proof.
  unfold outcome, analyzeProfile, generate, bind, emit; simpl.
  destruct (truthy (env_API_KEY w)); simpl; [|discriminate].
  destruct (generateContent w (assessment_request user repos)) as [e|[[|c rest]|]];
    simpl; try discriminate.
  destruct (JSON_parse (String c rest)) as [v'|] eqn:Hp; simpl; [|discriminate].
  intros [= <-]. split; [reflexivity|]. now exists (String c rest).
Qed.

Lemma analyzeProfile_parsed w user repos text v :
  truthy (env_API_KEY w) = true ->
  generateContent w (assessment_request user repos) = GenResponds (Some text) ->
  JSON_parse text = Some v ->
  outcome (analyzeProfile w user repos) = Resolved v.
Proof.
  intros Hkey Hgen Hparse.
  unfold outcome, analyzeProfile, generate, bind, emit; simpl.
  rewrite Hkey, Hgen; simpl.
  destruct text as [|c rest]; [discriminate Hparse|]. now rewrite Hparse.
Qed.

(** X8: [analyzeProfile] calls the model service once when the credential
    is configured, with the request built from the given profile and
    repositories, and not at all when it is missing or empty; it never
    calls it twice, whatever the answer. *)
Theorem analyzeProfile_calls_model_at_most_once
    (w : World) (user : GitHubUser) (repos : list GitHubRepo) :
  trace_of (analyzeProfile w user repos) =
  EvEnterAnalyzeProfile ::
  (if truthy (env_API_KEY w) then [EvGenerateContent (assessment_request user repos)]
   else []).
Proof.
  unfold trace_of, analyzeProfile, bind, emit; simpl.
  destruct (truthy (env_API_KEY w)); simpl; [|reflexivity].
  unfold generate, bind, emit; simpl.
  destruct (generateContent w (assessment_request user repos)) as [e|text]; simpl;
    [reflexivity|].
  destruct text as [[|c rest]|]; simpl; try reflexivity.
  destruct (JSON_parse (String c rest)); reflexivity.
Qed.

(** X9: [analyzeProfile] resolves with [v] exactly when the credential is
    configured and the model answered with a non-empty text that parses
    to [v]. *)
Theorem analyzeProfile_resolves_iff
    (w : World) (user : GitHubUser) (repos : list GitHubRepo) (v : json) :
  outcome (analyzeProfile w user repos) = Resolved v <->
  truthy (env_API_KEY w) = true /\
  exists text,
    generateContent w (assessment_request user repos) = GenResponds (Some text) /\
    JSON_parse text = Some v.
Proof.
  split; [apply analyzeProfile_resolved|].
  intros (Hkey & text & Hgen & Hparse). eapply analyzeProfile_parsed; eassumption.
Qed.

Lemma analyzeProfile_resolves_iff_witness :
  truthy (env_API_KEY (world_answering partial_assessment_text)) = true /\
  exists text,
    generateContent (world_answering partial_assessment_text)
      (assessment_request sample_user [sample_repo "hello"]) = GenResponds (Some text) /\
    JSON_parse text = Some (JObject [("profileScore"%string, JNumber "80")]).
Proof.
  apply (proj1 (analyzeProfile_resolves_iff (world_answering partial_assessment_text)
                  sample_user [sample_repo "hello"]
                  (JObject [("profileScore"%string, JNumber "80")]))).
  reflexivity.
Defined.

Lemma view_after_app tr evs :
  view_after (tr ++ evs) = fold_left apply_event evs (view_after tr).
Proof. unfold view_after. apply fold_left_app. Qed.

Lemma view_unchanged evs v :
  Forall (fun ev => is_ui_event ev = false) evs -> fold_left apply_event evs v = v.
Proof.
  intros H. revert v. induction H as [|ev evs Hev _ IH]; intros v; simpl; [reflexivity|].
  rewrite IH. destruct ev; try reflexivity; discriminate.
Qed.

Ltac tame_any :=
  repeat first
    [ eapply tame_weaken; [|apply tame_analyzeProfile]; intros; exact I
    | eapply tame_weaken; [|apply tame_fetchFullProfileData]; intros; exact I
    | apply tame_ret | apply tame_throw | apply tame_settle
    | apply tame_emit; exact I
    | apply tame_bind; [|intros]
    | apply tame_try_catch; [|intros]
    | match goal with |- tame _ (if ?c then _ else _) => destruct c end ].

Ltac oblivious_any := intros; apply (tame_oblivious (fun _ => True)); tame_any.

(** The run of [handleAnalyze], by the outcome of its two steps. *)
Lemma handleAnalyze_run w targetUser token :
  outcome (handleAnalyze w targetUser token) = Resolved tt /\
  trace_of (handleAnalyze w targetUser token) =
    EvSetState FETCHING_GITHUB :: EvSetError None ::
    trace_of (fetchFullProfileData w targetUser (token_or_undefined token)) ++
    match outcome (fetchFullProfileData w targetUser (token_or_undefined token)) with
    | Rejected e => failure_events e
    | Resolved profile =>
        if Nat.eqb (length (pd_repos profile)) 0
        then failure_events (mkError Error no_repositories_message)
        else
          EvSetState ANALYZING_GEMINI ::
          trace_of (analyzeProfile w (pd_user profile) (pd_repos profile)) ++
          match outcome (analyzeProfile w (pd_user profile) (pd_repos profile)) with
          | Resolved analysis =>
              [EvSetData (pd_user profile) (pd_repos profile) analysis (pd_stats profile);
               EvSetState COMPLETE]
          | Rejected e => failure_events e
          end
    end.
Proof.
  unfold handleAnalyze.
  rewrite !outcome_bind, !trace_of_bind by oblivious_any. simpl.
  rewrite outcome_try_catch, trace_of_try_catch by oblivious_any.
  rewrite outcome_bind, trace_of_bind by oblivious_any.
  destruct (outcome (fetchFullProfileData w targetUser (token_or_undefined token)))
    as [profile|e].
  - destruct (Nat.eqb (length (pd_repos profile)) 0).
    + simpl. rewrite !outcome_bind, !trace_of_bind by oblivious_any. simpl.
      split; [reflexivity|]. rewrite <- ?app_assoc. reflexivity.
    + rewrite !outcome_bind, !trace_of_bind by oblivious_any. simpl.
      destruct (outcome (analyzeProfile w (pd_user profile) (pd_repos profile))) as [v|e].
      * rewrite !outcome_bind, !trace_of_bind by oblivious_any. simpl.
        split; [reflexivity|]. rewrite <- ?app_assoc. simpl. rewrite ?app_nil_r. reflexivity.
      * simpl. rewrite !outcome_bind, !trace_of_bind by oblivious_any. simpl.
        split; [reflexivity|]. rewrite <- ?app_assoc. simpl. rewrite ?app_nil_r. reflexivity.
  - simpl. rewrite !outcome_bind, !trace_of_bind by oblivious_any. simpl.
    split; [reflexivity|]. rewrite <- ?app_assoc. reflexivity.
Qed.


(** ** The end states of [handleAnalyze] *)

Lemma shown_message_not_empty e : shown_message e <> EmptyString.
Proof.
  unfold shown_message. destruct (err_message e) as [|c rest] eqn:E; simpl; discriminate.
Qed.

Lemma network_event_not_ui ev : is_network_event ev -> is_ui_event ev = false.
Proof. destruct ev; simpl; tauto. Qed.

Lemma assessment_event_not_ui ev : is_assessment_event ev = true -> is_ui_event ev = false.
Proof. destruct ev; simpl; congruence. Qed.

Lemma network_event_not_assessment ev : is_network_event ev -> is_assessment_event ev = false.
Proof. destruct ev; simpl; tauto. Qed.

Lemma view_after_aggregation w username token tail :
  view_after (EvSetState FETCHING_GITHUB :: EvSetError None ::
              trace_of (fetchFullProfileData w username token) ++ tail)
  = fold_left apply_event tail {| view_state := FETCHING_GITHUB; view_error := None |}.
Proof.
  change (EvSetState FETCHING_GITHUB :: EvSetError None ::
          trace_of (fetchFullProfileData w username token) ++ tail)
    with (([EvSetState FETCHING_GITHUB; EvSetError None] ++
           trace_of (fetchFullProfileData w username token)) ++ tail).
  rewrite !view_after_app. f_equal. apply view_unchanged.
  destruct (tame_fetchFullProfileData w username token) as [_ H].
  eapply Forall_impl; [exact H|]. apply network_event_not_ui.
Qed.

Lemma view_through_assessment w user repos tail v :
  fold_left apply_event
    (EvSetState ANALYZING_GEMINI :: trace_of (analyzeProfile w user repos) ++ tail) v
  = fold_left apply_event tail
      {| view_state := ANALYZING_GEMINI; view_error := view_error v |}.
Proof.
  simpl. rewrite fold_left_app. f_equal. apply view_unchanged.
  destruct (tame_analyzeProfile w user repos) as [_ H].
  eapply Forall_impl; [exact H|]. apply assessment_event_not_ui.
Qed.

(** X10: [handleAnalyze] never rejects, and it leaves the view either in
    the state COMPLETE without error message or in the state ERROR with
    an error message that is not empty. *)
Theorem handleAnalyze_ends_complete_or_error
    (w : World) (targetUser token : string) :
  outcome (handleAnalyze w targetUser token) = Resolved tt /\
  (view_after (trace_of (handleAnalyze w targetUser token))
     = {| view_state := COMPLETE; view_error := None |} \/
   exists msg,
     msg <> EmptyString /\
     view_after (trace_of (handleAnalyze w targetUser token))
     = {| view_state := ERROR; view_error := Some msg |}).
Proof.
  destruct (handleAnalyze_run w targetUser token) as [Ho Ht].
  split; [exact Ho|]. rewrite Ht, view_after_aggregation.
  destruct (outcome (fetchFullProfileData w targetUser (token_or_undefined token)))
    as [profile|e].
  - destruct (Nat.eqb (length (pd_repos profile)) 0).
    + right. eexists. split; [|reflexivity]. apply shown_message_not_empty.
    + rewrite view_through_assessment.
      destruct (outcome (analyzeProfile w (pd_user profile) (pd_repos profile))) as [v|e].
      * left. reflexivity.
      * right. eexists. split; [|reflexivity]. apply shown_message_not_empty.
  - right. eexists. split; [|reflexivity]. apply shown_message_not_empty.
Qed.

(** X12: when the aggregation fails, [handleAnalyze] ends in the state
    ERROR showing the message of that failure (or the fixed sentence when
    the message is empty), and the assessment is not entered. *)
Theorem handleAnalyze_shows_aggregation_failure
    (w : World) (targetUser token : string) (e : JsError) :
  outcome (fetchFullProfileData w targetUser (token_or_undefined token)) = Rejected e ->
  view_after (trace_of (handleAnalyze w targetUser token))
    = {| view_state := ERROR; view_error := Some (shown_message e) |} /\
  no_assessment (trace_of (handleAnalyze w targetUser token)).
Proof.
  intros H. destruct (handleAnalyze_run w targetUser token) as [_ Ht].
  rewrite Ht, view_after_aggregation, H. split; [reflexivity|].
  repeat constructor. apply no_assessment_app; [|repeat constructor].
  destruct (tame_fetchFullProfileData w targetUser (token_or_undefined token)) as [_ Hn].
  eapply Forall_impl; [exact Hn|]. apply network_event_not_assessment.
Qed.

Lemma handleAnalyze_shows_aggregation_failure_witness :
  view_after (trace_of (handleAnalyze world_profile_missing "ghost" EmptyString))
    = {| view_state := ERROR; view_error := Some not_found_message |} /\
  no_assessment (trace_of (handleAnalyze world_profile_missing "ghost" EmptyString)).
Proof.
  apply (handleAnalyze_shows_aggregation_failure world_profile_missing "ghost" EmptyString
           (mkError Error not_found_message)).
  reflexivity.
Defined.

(** X13: when the aggregation gives repositories and the assessment
    fails, [handleAnalyze] ends in the state ERROR showing the message of
    that failure, and no result is stored. *)
Theorem handleAnalyze_shows_assessment_failure
    (w : World) (targetUser token : string) (profile : ProfileData) (e : JsError) :
  outcome (fetchFullProfileData w targetUser (token_or_undefined token)) = Resolved profile ->
  pd_repos profile <> [] ->
  outcome (analyzeProfile w (pd_user profile) (pd_repos profile)) = Rejected e ->
  view_after (trace_of (handleAnalyze w targetUser token))
    = {| view_state := ERROR; view_error := Some (shown_message e) |} /\
  Forall (fun ev => forall u r a s, ev <> EvSetData u r a s)
    (trace_of (handleAnalyze w targetUser token)).
Proof.
  intros Hf Hne Ha. destruct (handleAnalyze_run w targetUser token) as [_ Ht].
  assert (Hlen : Nat.eqb (length (pd_repos profile)) 0 = false)
    by (destruct (pd_repos profile); [contradiction|reflexivity]).
  rewrite Ht, view_after_aggregation, Hf, Hlen, Ha.
  split.
  - rewrite view_through_assessment. reflexivity.
  - repeat (constructor; [discriminate|]).
    apply Forall_app; split.
    + destruct (tame_fetchFullProfileData w targetUser (token_or_undefined token))
        as [_ Hn].
      eapply Forall_impl; [exact Hn|]. intros ev Hev. destruct ev; simpl in Hev; try tauto;
        discriminate.
    + constructor; [discriminate|]. apply Forall_app; split.
      * destruct (tame_analyzeProfile w (pd_user profile) (pd_repos profile)) as [_ H].
        eapply Forall_impl; [exact H|]. intros ev Hev. destruct ev; simpl in Hev;
          discriminate.
      * repeat (constructor; [discriminate|]). constructor.
Qed.

Lemma handleAnalyze_shows_assessment_failure_witness :
  view_after (trace_of (handleAnalyze
                          (world_with_repos sample_user [sample_repo "alpha"] "alpha"
                             hello_readme)
                          "octocat" EmptyString))
  = {| view_state := ERROR; view_error := Some "No response from AI service"%string |}.
Proof.
  refine (proj1 (handleAnalyze_shows_assessment_failure
            (world_with_repos sample_user [sample_repo "alpha"] "alpha" hello_readme)
            "octocat" EmptyString
            {| pd_user := sample_user;
               pd_repos := [with_readmeContent (sample_repo "alpha")
                              (Some "Hello world"%string)];
               pd_stats := zero_stats |}
            (mkError Error "No response from AI service") _ _ _)).
  - vm_compute. reflexivity.
  - discriminate.
  - vm_compute. reflexivity.
Defined.

(** X11: when the profile and a list of repositories that is not empty
    are served, the credential is configured and the model answers with
    a text that parses, [handleAnalyze] sends the GitHub requests first,
    then enters the assessment with the repositories as aggregated (the
    README attached), stores the profile, these repositories, the parsed
    assessment and the statistics, and ends in the state COMPLETE. *)
Theorem handleAnalyze_completes
    (w : World) (targetUser token : string)
    (user : GitHubUser) (repos : list GitHubRepo) (text : string) (v : json) :
  serves (github_user w)
    (github_request (user_url targetUser) (token_or_undefined token)) user ->
  serves (github_repos w)
    (github_request (repos_url targetUser) (token_or_undefined token)) repos ->
  repos <> [] ->
  truthy (env_API_KEY w) = true ->
  generateContent w
    (assessment_request user (imap (attached w user (token_or_undefined token)) repos))
    = GenResponds (Some text) ->
  JSON_parse text = Some v ->
  trace_of (handleAnalyze w targetUser token) =
    EvSetState FETCHING_GITHUB :: EvSetError None ::
    trace_of (fetchFullProfileData w targetUser (token_or_undefined token)) ++
    [EvSetState ANALYZING_GEMINI;
     EvEnterAnalyzeProfile;
     EvGenerateContent
       (assessment_request user (imap (attached w user (token_or_undefined token)) repos));
     EvSetData user (imap (attached w user (token_or_undefined token)) repos) v
       (stats_of w targetUser);
     EvSetState COMPLETE] /\
  view_after (trace_of (handleAnalyze w targetUser token))
    = {| view_state := COMPLETE; view_error := None |}.
Proof.
  intros Hu Hr Hne Hkey Hgen Hparse.
  pose proof (runs_to_outcome _ _ (runs_to_fetchFullProfileData _ _ _ _ _ Hu Hr)) as Hf.
  assert (Ha : outcome (analyzeProfile w user
                          (imap (attached w user (token_or_undefined token)) repos))
               = Resolved v).
  { eapply analyzeProfile_parsed; eassumption. }
  assert (Hlen : Nat.eqb (length (imap (attached w user (token_or_undefined token)) repos)) 0
                 = false).
  { rewrite length_imap. destruct repos; [contradiction|reflexivity]. }
  destruct (handleAnalyze_run w targetUser token) as [_ Ht].
  rewrite Hf in Ht. simpl in Ht. rewrite Hlen, Ha in Ht.
  rewrite trace_of_analyzeProfile, Hkey in Ht.
  split; [exact Ht|].
  rewrite Ht, view_after_aggregation. reflexivity.
Qed.

Lemma handleAnalyze_completes_witness :
  view_after (trace_of (handleAnalyze
                          (world_assessed sample_user [sample_repo "alpha"]
                             partial_assessment_text)
                          "octocat" EmptyString))
  = {| view_state := COMPLETE; view_error := None |}.
Proof.
  refine (proj2 (handleAnalyze_completes
            (world_assessed sample_user [sample_repo "alpha"] partial_assessment_text)
            "octocat" EmptyString sample_user [sample_repo "alpha"]
            partial_assessment_text (JObject [("profileScore"%string, JNumber "80")])
            _ _ _ _ _ _)).
  - eexists. repeat split; reflexivity.
  - eexists. repeat split; reflexivity.
  - discriminate.
  - reflexivity.
  - reflexivity.
  - reflexivity.
Defined.

(** ** The fetch wrapper and the README, both ways *)

(** X1: [fetchGitHub] resolves with [v] exactly when the network answers
    the request with a status in 200-299 and a body that parses to [v];
    in particular it never resolves on a failed request or on another
    status. *)
Theorem fetchGitHub_resolves_iff_served
    {T} (net : Request -> FetchOutcome T) (url : string) (token : option string) (v : T) :
  outcome (fetchGitHub net url token) = Resolved v <->
  serves net (github_request url token) v.
Proof.
  unfold serves, outcome, fetchGitHub, bind. rewrite fetch_run.
  destruct (net (github_request url token)) as [e|r]; simpl.
  - split; [discriminate|]. intros (r & Hr & _). discriminate Hr.
  - destruct (ok r) eqn:Hok; simpl.
    + unfold settle; simpl. split.
      * intros Hb. exists r. auto.
      * intros (r' & [= <-] & _ & Hb). exact Hb.
    + split.
      * destruct ((status r =? 403) || (status r =? 429)); [discriminate|].
        destruct (status r =? 404); discriminate.
      * intros (r' & [= <-] & Hok' & _). congruence.
Qed.

Lemma fetchGitHub_resolves_iff_served_witness :
  outcome (fetchGitHub (fun _ => answer sample_user) (user_url "octocat") None)
  = Resolved sample_user.
Proof.
  apply (proj2 (fetchGitHub_resolves_iff_served (fun _ => answer sample_user) (user_url "octocat")
                  None sample_user)).
  eexists. repeat split; reflexivity.
Defined.

(** X2: whatever the answer, [fetchGitHub] sends exactly one request, to
    the given address, with the [Accept] header; the request carries an
    [Authorization] header exactly when a non-empty token is given, and
    its value is then [token ] followed by the token. *)
Theorem fetchGitHub_sends_one_request
    {T} (net : Request -> FetchOutcome T) (url : string) (token : option string) :
  exists req,
    trace_of (fetchGitHub net url token) = [EvFetch req] /\
    req_url req = url /\
    ("Accept"%string, "application/vnd.github.v3+json"%string) ∈ req_headers req /\
    forall v,
      ("Authorization"%string, v) ∈ req_headers req <->
      exists t, token = Some t /\ t <> EmptyString /\ v = ("token " +:+ t)%string.
Proof.
  exists (github_request url token). rewrite trace_of_fetchGitHub.
  split; [reflexivity|]. split; [reflexivity|]. split; [left|].
  intros v. unfold github_request; simpl. rewrite elem_of_cons. split.
  - intros [H|H]; [discriminate H|].
    destruct token as [[|c t]|]; simpl in H.
    + now apply elem_of_nil in H.
    + apply list_elem_of_singleton in H. injection H as ->.
      exists (String c t). repeat split. discriminate.
    + now apply elem_of_nil in H.
  - intros (t & -> & Hne & ->). right.
    destruct t as [|c t]; [contradiction|]. simpl. now left.
Qed.

Lemma fetchGitHub_sends_one_request_witness :
  exists req,
    trace_of (fetchGitHub (T := GitHubUser) offline (user_url "octocat") (Some "s3cret"%string))
      = [EvFetch req] /\
    ("Authorization"%string, "token s3cret"%string) ∈ req_headers req.
Proof.
  destruct (fetchGitHub_sends_one_request (T := GitHubUser) offline (user_url "octocat")
              (Some "s3cret"%string)) as (req & Ht & _ & _ & Hauth).
  exists req. split; [exact Ht|].
  apply Hauth. exists "s3cret"%string. repeat split. discriminate.
Defined.

(** X6: [getRepoReadme] always resolves, and it resolves with a text
    exactly when the request is served, the encoding is [base64], the
    content is not empty and decodes: the text is then the first 2000
    characters of the decoded content. In every other case, malformed
    base64 included, the result is [null]. *)
Theorem getRepoReadme_attaches_only_decoded_base64
    (w : World) (owner repo : string) (token : option string) :
  (exists readme, outcome (getRepoReadme w owner repo token) = Resolved readme) /\
  forall s,
    outcome (getRepoReadme w owner repo token) = Resolved (Some s) <->
    exists data decoded,
      serves (github_readme w) (github_request (readme_url owner repo) token) data /\
      encoding data = "base64"%string /\
      content data <> EmptyString /\
      atob (remove_newlines (content data)) = Resolved decoded /\
      s = slice0 2000 decoded.
Proof.
  split.
  { exists (readme_of w owner repo token). unfold outcome. now rewrite getRepoReadme_run. }
  intros s.
  unfold outcome, getRepoReadme, try_catch, bind. rewrite fetchGitHub_run.
  split.
  - destruct (outcome (fetchGitHub (github_readme w) (readme_url owner repo) token))
      as [data|e] eqn:Hf; simpl; [|discriminate].
    destruct (String.eqb (encoding data) "base64") eqn:He; simpl; [|discriminate].
    destruct (content data) as [|c rest] eqn:Hc; [discriminate|]. rewrite <- Hc.
    unfold settle.
    destruct (atob (remove_newlines (content data))) as [decoded|e] eqn:Ha;
      simpl; [|discriminate].
    intros [= <-]. exists data, decoded.
    split; [now apply fetchGitHub_resolved_serves|].
    split; [now apply String.eqb_eq|].
    split; [rewrite Hc; discriminate|]. split; [exact Ha|reflexivity].
  - intros (data & decoded & Hs & He & Hc & Ha & ->).
    rewrite (fetchGitHub_serves _ _ _ _ Hs); simpl.
    apply String.eqb_eq in He. rewrite He; simpl.
    destruct (content data) as [|c rest]; [contradiction|].
    unfold settle. now rewrite Ha.
Qed.

Lemma getRepoReadme_attaches_only_decoded_base64_witness :
  outcome (getRepoReadme
             (world_with_repos sample_user [sample_repo "beta"] "beta" hello_readme)
             "octocat" "beta" None) = Resolved (Some "Hello world"%string) /\
  outcome (getRepoReadme
             (world_with_repos sample_user [sample_repo "beta"] "beta" garbled_readme)
             "octocat" "beta" None) = Resolved None.
Proof.
  split.
  - apply (proj2 (proj2 (getRepoReadme_attaches_only_decoded_base64
                           (world_with_repos sample_user [sample_repo "beta"] "beta"
                              hello_readme) "octocat" "beta" None)
                    "Hello world"%string)).
    exists hello_readme, "Hello world"%string.
    split; [eexists; repeat split; reflexivity|].
    split; [reflexivity|]. split; [discriminate|].
    split; vm_compute; reflexivity.
  - destruct (proj1 (getRepoReadme_attaches_only_decoded_base64
                       (world_with_repos sample_user [sample_repo "beta"] "beta"
                          garbled_readme) "octocat" "beta" None)) as [[s|] H];
      [|exact H].
    vm_compute in H. discriminate H.
Defined.

Lemma slice0_slice0 n m s : slice0 n (slice0 m s) = slice0 (Nat.min n m) s.
Proof.
  revert m s. induction n as [|n IH]; intros [|m] [|c s]; try reflexivity.
  unfold slice0; fold slice0. simpl Nat.min. unfold slice0; fold slice0. now rewrite IH.
Qed.

Lemma slice0_empty n s : slice0 (S n) s = EmptyString -> s = EmptyString.
Proof. destruct s; [reflexivity|discriminate]. Qed.

(** X7: the README preview of the prompt has at most 1500 characters; for
    a repository without README it is the fixed sentence, and for a
    README that the aggregation attached it is the first 1500 characters
    of the decoded content. *)
Theorem readme_preview_is_bounded_prefix (repo : GitHubRepo) (decoded : string) :
  (String.length (readme_preview repo) <= 1500)%nat /\
  readme_preview (with_readmeContent repo None) = "No README content available."%string /\
  readme_preview (with_readmeContent repo (Some (slice0 2000 decoded)))
  = match decoded with
    | EmptyString => "No README content available."%string
    | String _ _ => slice0 1500 decoded
    end.
Proof.
  split; [|split].
  - unfold readme_preview. destruct (readmeContent repo) as [|[[|c rest]|]];
      try (vm_compute; lia). apply slice0_length.
  - reflexivity.
  - unfold readme_preview; simpl.
    destruct decoded as [|c rest]; [reflexivity|].
    change (slice0 2000 (String c rest)) with (String c (slice0 1999 rest)).
    change (String c (slice0 1999 rest)) with (slice0 2000 (String c rest)).
    destruct (slice0 2000 (String c rest)) as [|c' rest'] eqn:E; [discriminate E|].
    rewrite <- E. now rewrite slice0_slice0.
Qed.

(** ** Streaks as runs of days with contributions *)

Lemma run_length_nonneg l : 0 <= run_length l.
Proof. induction l as [|d l IH]; simpl; [lia|]. destruct (0 <? count d)%N; lia. Qed.

Lemma max_run_ge_run l : run_length l <= max_run l.
Proof. destruct l; simpl; lia. Qed.

Lemma max_run_nonneg l : 0 <= max_run l.
Proof. pose proof (run_length_nonneg l). pose proof (max_run_ge_run l). lia. Qed.

Lemma forEach_max_run l longest temp :
  0 <= temp ->
  (let '(longest', temp') := fold_left forEach_day l (longest, temp) in
   Z.max longest' temp')
  = Z.max longest (Z.max (temp + run_length l) (max_run l)).
Proof.
  revert longest temp. induction l as [|d l IH]; intros longest temp Ht.
  - simpl. lia.
  - cbn [fold_left]. unfold forEach_day at 2.
    pose proof (run_length_nonneg l). pose proof (max_run_ge_run l).
    cbn [run_length max_run].
    destruct (0 <? count d)%N.
    + rewrite IH by lia. lia.
    + rewrite IH by lia. lia.
Qed.

Lemma longest_of_max_run l : longest_of l = max_run l.
Proof.
  unfold longest_of. rewrite (forEach_max_run l 0 0) by lia.
  pose proof (run_length_nonneg l). pose proof (max_run_ge_run l). lia.
Qed.

Lemma run_length_block block rest :
  Forall active block -> Z.of_nat (length block) <= run_length (block ++ rest).
Proof.
  induction 1 as [|d block Hd _ IH]; simpl.
  - apply run_length_nonneg.
  - apply N.ltb_lt in Hd. rewrite Hd. lia.
Qed.

Lemma max_run_app l1 l2 : max_run l2 <= max_run (l1 ++ l2).
Proof. induction l1 as [|d l1 IH]; simpl; lia. Qed.

Lemma run_length_take l :
  exists block rest,
    l = block ++ rest /\ Forall active block /\ Z.of_nat (length block) = run_length l.
Proof.
  induction l as [|d l (block & rest & E & Hb & Hl)]; simpl.
  - exists [], []. repeat split. constructor.
  - destruct (0 <? count d)%N eqn:Hd.
    + exists (d :: block), rest. rewrite E at 1. repeat split.
      * constructor; [now apply N.ltb_lt|exact Hb].
      * simpl length. lia.
    + exists [], (d :: l). repeat split. constructor.
Qed.

Lemma max_run_attained l :
  exists before block rest,
    l = before ++ block ++ rest /\ Forall active block /\
    Z.of_nat (length block) = max_run l.
Proof.
  induction l as [|d l (before & block & rest & E & Hb & Hl)].
  - exists [], [], []. repeat split. constructor.
  - cbn [max_run]. destruct (Z.max_spec (run_length (d :: l)) (max_run l)) as [[_ ->]|[_ ->]].
    + exists (d :: before), block, rest. rewrite E at 1. repeat split; assumption.
    + destruct (run_length_take (d :: l)) as (block' & rest' & E' & Hb' & Hl').
      exists [], block', rest'. repeat split; assumption.
Qed.

#[local] Instance not_later_trans : Transitive not_later.
Proof.
  intros a b c (x & y & Ha & Hb & Hxy) (y' & z & Hb' & Hc & Hyz).
  rewrite Hb in Hb'. injection Hb' as <-. exists x, z. repeat split; [assumption..|lia].
Qed.

Lemma sort_insert_chronological x l :
  is_Some (time_of x) -> calendar_days l ->
  StronglySorted not_later l ->
  StronglySorted not_later (sort_insert compare_dates x l).
Proof.
  intros [tx Hx] Hl Hs. induction Hs as [|y l Hs IH Hy]; simpl.
  - repeat constructor.
  - apply Forall_cons in Hl as [[ty Hty] Hl].
    rewrite (sorts_before_dates _ _ _ _ Hty Hx).
    destruct (Z.ltb_spec (ty - tx) 0) as [Hlt|Hge].
    + constructor; [now apply IH|].
      rewrite sort_insert_perm. constructor; [|assumption].
      exists ty, tx. repeat split; [assumption..|lia].
    + assert (Hxy : not_later x y) by (exists tx, ty; repeat split; [assumption..|lia]).
      constructor; [now constructor|].
      constructor; [assumption|].
      eapply Forall_impl; [exact Hy|]. intros z Hz. now transitivity y.
Qed.

(** On days of the calendar the sort puts the series in chronological
    order, entries of the same day staying as they were. *)
Lemma Array_sort_not_later (days : list ContributionDay) :
  calendar_days days -> StronglySorted not_later (Array_sort compare_dates days).
Proof.
  intros Hc. induction days as [|x l IH]; simpl; [constructor|].
  apply Forall_cons in Hc as [Hx Hl].
  apply sort_insert_chronological; [assumption| |now apply IH].
  unfold calendar_days. now rewrite Array_sort_perm.
Qed.

(** X14: on a series whose dates are days of the calendar, the longest
    streak is the length of the longest stretch of consecutive entries
    with contributions in the series put in chronological order: no such
    stretch is longer, and one of them has exactly that length. *)
Theorem longest_streak_is_longest_run
    (w : World) (username : string) (m : gmap string N) (days : list ContributionDay) :
  delivers w username m days ->
  calendar_days days ->
  exists stats,
    outcome (fetchContributionStats w username) = Resolved stats /\
    StronglySorted not_later (Array_sort compare_dates days) /\
    (forall before block rest,
       Array_sort compare_dates days = before ++ block ++ rest ->
       Forall active block ->
       Z.of_nat (length block) <= longestStreak stats) /\
    (exists before block rest,
       Array_sort compare_dates days = before ++ block ++ rest /\
       Forall active block /\
       Z.of_nat (length block) = longestStreak stats).
Proof.
  intros H Hc. rewrite (fetchContributionStats_delivers _ _ _ _ H).
  eexists; split; [reflexivity|]. simpl. rewrite longest_of_max_run.
  split; [now apply Array_sort_not_later|]. split.
  - intros before block rest -> Hb.
    pose proof (run_length_block block rest Hb).
    pose proof (max_run_ge_run (block ++ rest)).
    pose proof (max_run_app before (block ++ rest)). lia.
  - apply max_run_attained.
Qed.

Lemma longest_streak_is_longest_run_witness :
  exists stats,
    outcome (fetchContributionStats
               (world_with_two_series "2024-03-01T09:30:00.000Z" "octocat" "hubot"
                  [day "2024-02-28" 1; day "2024-02-25" 2; day "2024-02-26" 0;
                   day "2024-02-27" 3; day "2024-02-29" 0]
                  [])
               "octocat") = Resolved stats /\
    longestStreak stats = 2.
Proof.
  destruct (longest_streak_is_longest_run
              (world_with_two_series "2024-03-01T09:30:00.000Z" "octocat" "hubot"
                 [day "2024-02-28" 1; day "2024-02-25" 2; day "2024-02-26" 0;
                  day "2024-02-27" 3; day "2024-02-29" 0]
                 [])
              "octocat" totals_2023_2024
              [day "2024-02-28" 1; day "2024-02-25" 2; day "2024-02-26" 0;
               day "2024-02-27" 3; day "2024-02-29" 0]
              (delivers_payload _ _ _ _ _)) as (stats & Hs & _).
  { unfold calendar_days. repeat (constructor; [eexists; reflexivity|]). constructor. }
  exists stats. split; [exact Hs|].
  assert (E : outcome (fetchContributionStats
               (world_with_two_series "2024-03-01T09:30:00.000Z" "octocat" "hubot"
                  [day "2024-02-28" 1; day "2024-02-25" 2; day "2024-02-26" 0;
                   day "2024-02-27" 3; day "2024-02-29" 0]
                  [])
               "octocat")
            = Resolved {| totalContributions := 15; longestStreak := 2; currentStreak := 0 |})
    by (vm_compute; reflexivity).
  rewrite E in Hs. injection Hs as <-. reflexivity.
Defined.

Lemma active_days_cons d l :
  active_days (d :: l) = (if (0 <? count d)%N then 1 else 0) + active_days l.
Proof.
  unfold active_days. rewrite filter_cons.
  destruct (N.ltb_spec 0 (count d)) as [H|H].
  - rewrite decide_True by exact H. simpl length. lia.
  - rewrite decide_False by (unfold active; lia). lia.
Qed.

Lemma active_days_nonneg l : 0 <= active_days l.
Proof. unfold active_days. lia. Qed.

Lemma run_length_le_active l : run_length l <= active_days l.
Proof.
  induction l as [|d l IH]; [reflexivity|].
  rewrite active_days_cons. simpl. pose proof (active_days_nonneg l).
  destruct (0 <? count d)%N; lia.
Qed.

Lemma max_run_le_active l : max_run l <= active_days l.
Proof.
  induction l as [|d l IH]; [reflexivity|].
  cbn [max_run]. pose proof (run_length_le_active (d :: l)).
  rewrite active_days_cons in *. destruct (0 <? count d)%N; lia.
Qed.

Lemma active_loop_le_active today l n : active_loop today l n <= n + active_days l.
Proof.
  revert n. induction l as [|d l IH]; intros n.
  - unfold active_days. simpl. lia.
  - rewrite active_days_cons. simpl. pose proof (active_days_nonneg l).
    destruct (0 <? count d)%N.
    + specialize (IH (n + 1)). lia.
    + destruct (String.eqb (date d) today); [specialize (IH n)|]; lia.
Qed.

Lemma active_days_perm l1 l2 : l1 ≡ₚ l2 -> active_days l1 = active_days l2.
Proof. intros H. unfold active_days. now rewrite H. Qed.

Lemma max_run_zero l : max_run l = 0 -> Forall (fun d => count d = 0%N) l.
Proof.
  induction l as [|d l IH]; [constructor|].
  cbn [max_run run_length]. pose proof (run_length_nonneg l). pose proof (max_run_nonneg l).
  destruct (N.ltb_spec 0 (count d)) as [Hd|Hd]; [lia|].
  intros E. constructor; [lia|]. apply IH. lia.
Qed.

(** X15: for every series, both streaks lie between zero and the number
    of days with contributions, which is at most the number of entries;
    and the longest streak is zero exactly when no day has a
    contribution. *)
Theorem streaks_bounded_by_active_days
    (w : World) (username : string) (m : gmap string N) (days : list ContributionDay) :
  delivers w username m days ->
  exists stats,
    outcome (fetchContributionStats w username) = Resolved stats /\
    0 <= longestStreak stats <= active_days days /\
    0 <= currentStreak stats <= active_days days /\
    active_days days <= Z.of_nat (length days) /\
    (longestStreak stats = 0 <-> Forall (fun d => count d = 0%N) days).
Proof.
  intros H. rewrite (fetchContributionStats_delivers _ _ _ _ H).
  eexists; split; [reflexivity|]. simpl.
  rewrite longest_of_max_run.
  rewrite <- (active_days_perm _ _ (Array_sort_perm compare_dates days)).
  split; [|split; [|split]].
  - split; [apply max_run_nonneg|apply max_run_le_active].
  - split; [apply active_loop_lower_bound|].
    pose proof (active_loop_le_active (today_of w) (rev (Array_sort compare_dates days)) 0)
      as Hle.
    rewrite (active_days_perm (rev _) (Array_sort compare_dates days)) in Hle
      by (symmetry; apply Permutation_rev).
    lia.
  - rewrite (active_days_perm _ _ (Array_sort_perm compare_dates days)).
    unfold active_days. pose proof (length_filter active days). lia.
  - split.
    + intros E. apply max_run_zero in E. now rewrite Array_sort_perm in E.
    + intros Hz. apply (Array_sort_Forall compare_dates) in Hz.
      rewrite <- longest_of_max_run. unfold longest_of. now rewrite forEach_all_zero.
Qed.

Lemma streaks_bounded_by_active_days_witness :
  exists stats,
    outcome (fetchContributionStats
               (world_with_two_series "2024-03-01T09:30:00.000Z" "octocat" "hubot"
                  [day "2024-02-28" 1; day "2024-02-25" 2; day "2024-02-26" 0;
                   day "2024-02-27" 3; day "2024-02-29" 0]
                  [])
               "octocat") = Resolved stats /\
    0 <= longestStreak stats <= 3 /\
    0 <= currentStreak stats <= 3.
Proof.
  destruct (streaks_bounded_by_active_days
              (world_with_two_series "2024-03-01T09:30:00.000Z" "octocat" "hubot"
                 [day "2024-02-28" 1; day "2024-02-25" 2; day "2024-02-26" 0;
                  day "2024-02-27" 3; day "2024-02-29" 0]
                 [])
              "octocat" totals_2023_2024
              [day "2024-02-28" 1; day "2024-02-25" 2; day "2024-02-26" 0;
               day "2024-02-27" 3; day "2024-02-29" 0]
              (delivers_payload _ _ _ _ _)) as (stats & Hs & Hl & Hc & _).
  exists stats. split; [exact Hs|]. split; [exact Hl|exact Hc].
Defined.

(** ** Chronological order and the entry for today *)

(** X16: on a series whose dates are days of the calendar, repeated dates
    included, the sort keeps every entry and puts them in chronological
    order. *)
Theorem sort_is_chronological (days : list ContributionDay) :
  calendar_days days ->
  Array_sort compare_dates days ≡ₚ days /\
  StronglySorted not_later (Array_sort compare_dates days).
Proof.
  intros Hc. split; [apply Array_sort_perm|].
  induction days as [|x l IH]; simpl; [constructor|].
  apply Forall_cons in Hc as [Hx Hl].
  apply sort_insert_chronological; [assumption| |now apply IH].
  unfold calendar_days. now rewrite Array_sort_perm.
Qed.

Lemma sort_is_chronological_witness :
  StronglySorted not_later
    (Array_sort compare_dates
       [day "2024-02-28" 1; day "2024-02-25" 2; day "2024-02-28" 0; day "2023-12-31" 3]).
Proof.
  apply (sort_is_chronological
           [day "2024-02-28" 1; day "2024-02-25" 2; day "2024-02-28" 0; day "2023-12-31" 3]).
  unfold calendar_days. repeat (constructor; [eexists; reflexivity|]). constructor.
Defined.

(** X17: on a series whose dates are days of the calendar, repeated or
    later than today as they may be, and none of which is today: the
    current streak is the number of entries with contributions at the
    end of the series put in chronological order, and it is at most the
    longest streak. *)
Theorem current_streak_without_entry_for_today
    (w : World) (username : string) (m : gmap string N) (days : list ContributionDay) :
  delivers w username m days ->
  calendar_days days ->
  Forall (fun d => date d <> today_of w) days ->
  exists stats,
    outcome (fetchContributionStats w username) = Resolved stats /\
    StronglySorted not_later (Array_sort compare_dates days) /\
    currentStreak stats = run_length (rev (Array_sort compare_dates days)) /\
    currentStreak stats <= longestStreak stats.
Proof.
  intros H Hc Hn. rewrite (fetchContributionStats_delivers _ _ _ _ H).
  eexists; split; [reflexivity|]. simpl.
  split; [now apply Array_sort_not_later|].
  rewrite active_loop_without_today
    by (apply Forall_rev; now apply Array_sort_Forall).
  split; [lia|]. rewrite Z.add_0_l. apply run_length_le_longest.
Qed.

Lemma current_streak_without_entry_for_today_witness :
  exists stats,
    outcome (fetchContributionStats
               (world_with_two_series "2024-03-01T09:30:00.000Z" "octocat" "hubot"
                  [day "2024-02-29" 1; day "2024-02-27" 0; day "2024-02-28" 4]
                  [])
               "octocat") = Resolved stats /\
    currentStreak stats = 2.
Proof.
  destruct (current_streak_without_entry_for_today
              (world_with_two_series "2024-03-01T09:30:00.000Z" "octocat" "hubot"
                 [day "2024-02-29" 1; day "2024-02-27" 0; day "2024-02-28" 4]
                 [])
              "octocat" totals_2023_2024
              [day "2024-02-29" 1; day "2024-02-27" 0; day "2024-02-28" 4]
              (delivers_payload _ _ _ _ _)) as (stats & Hs & _ & Hc & _).
  - unfold calendar_days. repeat (constructor; [eexists; reflexivity|]). constructor.
  - repeat (constructor; [discriminate|]). constructor.
  - exists stats. split; [exact Hs|]. rewrite Hc. reflexivity.
Defined.

Lemma longest_of_zero_last l d :
  count d = 0%N -> longest_of (l ++ [d]) = longest_of l.
Proof.
  intros Hd. unfold longest_of. rewrite forEach_day_snoc.
  pose proof (forEach_invariant l) as (HL & Ht & Hr).
  destruct (fold_left forEach_day l (0, 0)) as [longest temp]; simpl in *.
  rewrite Hd. simpl. lia.
Qed.

(** X18: adding an entry for today with no contribution to a series of
    distinct earlier days changes none of the statistics. *)
Theorem todays_empty_entry_changes_nothing
    (w : World) (u1 u2 : string) (m : gmap string N)
    (days days' : list ContributionDay) (now : Z) :
  delivers w u1 m days ->
  delivers w u2 m days' ->
  days' ≡ₚ day (today_of w) 0 :: days ->
  Date_getTime (today_of w) = Some now ->
  NoDup (map date days) ->
  Forall (fun d => exists x, time_of d = Some x /\ x < now) days ->
  outcome (fetchContributionStats w u1) = outcome (fetchContributionStats w u2).
Proof.
  intros H1 H2 Hp Hnow Hnd Hbefore.
  rewrite (fetchContributionStats_delivers _ _ _ _ H1).
  rewrite (fetchContributionStats_delivers _ _ _ _ H2).
  assert (Hc : calendar_days days).
  { eapply Forall_impl; [exact Hbefore|]. intros d (x & Hx & _). now exists x. }
  assert (Hs : StronglySorted earlier (Array_sort compare_dates days))
    by now apply Array_sort_ascending.
  assert (E : Array_sort compare_dates days'
              = Array_sort compare_dates days ++ [day (today_of w) 0]).
  { apply (StronglySorted_unique earlier).
    - apply Array_sort_ascending.
      + unfold calendar_days. rewrite Hp. constructor; [|exact Hc].
        exists now. exact Hnow.
      + rewrite Hp. simpl. constructor; [|exact Hnd].
        intros Hin. apply list_elem_of_In, in_map_iff in Hin as (d & Hd & Hin).
        rewrite Forall_forall in Hbefore.
        destruct (Hbefore d) as (x & Hx & Hlt); [now apply list_elem_of_In|].
        unfold time_of in Hx. rewrite Hd, Hnow in Hx. injection Hx as <-. lia.
    - apply StronglySorted_app_2; [|exact Hs|repeat constructor].
      intros a b Ha Hb. apply list_elem_of_singleton in Hb as ->.
      rewrite Array_sort_perm in Ha. rewrite Forall_forall in Hbefore.
      destruct (Hbefore a Ha) as (x & Hx & Hlt). exists x, now. repeat split; assumption.
    - rewrite !Array_sort_perm, Hp. apply Permutation_cons_append. }
  rewrite E. rewrite longest_of_zero_last by reflexivity.
  rewrite rev_app_distr. simpl rev. simpl app.
  now rewrite active_loop_skips_today.
Qed.

Lemma todays_empty_entry_changes_nothing_witness :
  outcome (fetchContributionStats
             (world_with_two_series "2024-03-01T09:30:00.000Z" "octocat" "hubot"
                [day "2024-02-29" 1; day "2024-02-28" 2]
                [day "2024-02-29" 1; day "2024-03-01" 0; day "2024-02-28" 2])
             "octocat")
  = outcome (fetchContributionStats
               (world_with_two_series "2024-03-01T09:30:00.000Z" "octocat" "hubot"
                  [day "2024-02-29" 1; day "2024-02-28" 2]
                  [day "2024-02-29" 1; day "2024-03-01" 0; day "2024-02-28" 2])
               "hubot").
Proof.
  apply (todays_empty_entry_changes_nothing _ "octocat" "hubot" totals_2023_2024
           [day "2024-02-29" 1; day "2024-02-28" 2]
           [day "2024-02-29" 1; day "2024-03-01" 0; day "2024-02-28" 2]
           1709251200000).
  - apply delivers_payload.
  - apply delivers_payload_second. reflexivity.
  - apply Permutation_swap.
  - reflexivity.
  - simpl. repeat (constructor; [rewrite ?elem_of_cons, elem_of_nil; intuition discriminate|]).
    constructor.
  - repeat (constructor; [eexists; split; [vm_compute; reflexivity|reflexivity]|]).
    constructor.
Defined.

(** ** The user name and the submission of the form *)

Lemma split_on_not_nil sep s : split_on sep s <> [].
Proof.
  destruct s as [|c rest]; simpl; [discriminate|].
  destruct (Ascii.eqb c sep); [discriminate|]. destruct (split_on sep rest); discriminate.
Qed.

Lemma split_on_pieces sep s :
  Forall (fun piece => Forall (fun c => c <> sep) (list_ascii_of_string piece))
    (split_on sep s).
Proof.
  induction s as [|c rest IH]; simpl.
  - repeat constructor.
  - destruct (Ascii.eqb_spec c sep) as [->|Hne].
    + constructor; [constructor|exact IH].
    + destruct (split_on sep rest) as [|piece pieces].
      * repeat constructor. exact Hne.
      * apply Forall_cons in IH as [Hp Hps]. constructor; [|exact Hps].
        simpl. constructor; assumption.
Qed.

Lemma path_segments_spec s :
  Forall (fun piece => piece <> EmptyString /\ no_slash piece) (path_segments s).
Proof.
  unfold path_segments. pose proof (split_on_pieces "/" s) as H.
  induction H as [|piece pieces Hp _ IH]; simpl; [constructor|].
  destruct piece as [|c rest]; simpl; [exact IH|].
  constructor; [|exact IH]. split; [discriminate|exact Hp].
Qed.

Lemma path_segments_nil s : path_segments s = [] -> only_slashes s.
Proof.
  unfold path_segments, only_slashes. induction s as [|c rest IH]; simpl.
  - constructor.
  - destruct (Ascii.eqb_spec c "/") as [->|Hne]; simpl.
    + intros H. constructor; [reflexivity|now apply IH].
    + destruct (split_on "/" rest); simpl; discriminate.
Qed.

Lemma no_slash_segments s :
  s <> EmptyString -> no_slash s -> path_segments s = [s].
Proof.
  intros Hne Hs. unfold path_segments.
  assert (E : split_on "/" s = [s]).
  { clear Hne. induction s as [|c rest IH]; [reflexivity|].
    unfold no_slash in Hs. simpl in Hs. apply Forall_cons in Hs as [Hc Hr]. simpl.
    apply Ascii.eqb_neq in Hc. rewrite Hc. now rewrite IH. }
  rewrite E. destruct s; [contradiction|reflexivity].
Qed.


(** The value of [extractUsername], stage by stage. *)
Lemma extractUsername_outcome p input :
  exists fromUrl,
    (forall name, fromUrl = Some name ->
       name <> EmptyString /\ no_slash name /\
       includes "github.com" (String_trim p input) = true) /\
    outcome (extractUsername p input) =
    Resolved
      match fromUrl with
      | Some name => Some name
      | None =>
          match path_segments (String_trim p input) with
          | first :: _ => Some first
          | [] => if truthy (Some (String_trim p input)) then Some (String_trim p input)
                  else None
          end
      end.
Proof.
  unfold outcome, extractUsername, bind, try_catch, settle.
  destruct (includes "github.com" (String_trim p input)).
  - destruct (new_URL_pathname p _) as [pathname|e]; simpl.
    + pose proof (path_segments_spec pathname) as Hs.
      destruct (path_segments pathname) as [|first rest]; simpl.
      * exists None. split; [discriminate|].
        destruct (path_segments (String_trim p input)); reflexivity.
      * exists (Some first). split; [|reflexivity].
        intros name [= <-]. apply Forall_cons in Hs as [[? ?] _]. auto.
    + exists None. split; [discriminate|].
      destruct (path_segments (String_trim p input)); reflexivity.
  - exists None. split; [discriminate|]. simpl.
    destruct (path_segments (String_trim p input)); reflexivity.
Qed.


(** X19: [extractUsername] returns [null] exactly when the trimmed input
    is empty; a name that it returns is never empty, and it contains no
    slash unless the trimmed input consists of slashes only, which is
    then returned as it is. *)
Theorem extractUsername_null_only_on_blank_input (p : Platform) (input : string) :
  exists result,
    outcome (extractUsername p input) = Resolved result /\
    (result = None <-> String_trim p input = EmptyString) /\
    (forall name, result = Some name ->
       name <> EmptyString /\
       (no_slash name \/ (name = String_trim p input /\ only_slashes name))).
Proof.
  destruct (extractUsername_outcome p input) as (fromUrl & Hu & ->).
  eexists; split; [reflexivity|].
  pose proof (path_segments_spec (String_trim p input)) as Hs.
  pose proof (path_segments_nil (String_trim p input)) as Hn.
  destruct fromUrl as [name|].
  - destruct (Hu name eq_refl) as (Hne & Hslash & Hinc). split.
    + split; [discriminate|]. intros E. rewrite E in Hinc. discriminate Hinc.
    + intros name' [= <-]. auto.
  - destruct (path_segments (String_trim p input)) as [|first rest] eqn:Eseg.
    + destruct (String_trim p input) as [|c clean]; simpl.
      * split; [tauto|discriminate].
      * split; [split; discriminate|].
        intros name [= <-]. split; [discriminate|]. right. auto.
    + apply Forall_cons in Hs as [[Hne Hslash] _]. split.
      * split; [discriminate|]. intros E. rewrite E in Eseg. discriminate Eseg.
      * intros name [= <-]. auto.
Qed.


Lemma extractUsername_null_only_on_blank_input_witness :
  outcome (extractUsername sample_platform "   ") = Resolved None /\
  outcome (extractUsername sample_platform " octocat/Hello-World ")
    = Resolved (Some "octocat"%string).
Proof.
  destruct (extractUsername_null_only_on_blank_input sample_platform "   ")
    as (r1 & H1 & Hb1 & _).
  destruct (extractUsername_null_only_on_blank_input sample_platform " octocat/Hello-World ")
    as (r2 & H2 & _ & _).
  split.
  - rewrite H1. f_equal. apply Hb1. reflexivity.
  - rewrite H2. vm_compute in H2. injection H2 as <-. reflexivity.
Defined.

(** X20: on an input that, once trimmed, is a handle without slash that
    does not contain [github.com], [extractUsername] returns the trimmed
    handle and logs nothing. *)
Theorem extractUsername_keeps_plain_handle (p : Platform) (input : string) :
  String_trim p input <> EmptyString ->
  no_slash (String_trim p input) ->
  includes "github.com" (String_trim p input) = false ->
  outcome (extractUsername p input) = Resolved (Some (String_trim p input)) /\
  trace_of (extractUsername p input) = [].
Proof.
  intros Hne Hslash Hinc.
  unfold outcome, trace_of, extractUsername, bind. rewrite Hinc. simpl.
  rewrite (no_slash_segments _ Hne Hslash). split; reflexivity.
Qed.

Lemma extractUsername_keeps_plain_handle_witness :
  outcome (extractUsername sample_platform "  octocat ") = Resolved (Some "octocat"%string).
Proof.
  refine (proj1 (extractUsername_keeps_plain_handle sample_platform "  octocat " _ _ _)).
  - discriminate.
  - unfold no_slash. vm_compute. repeat (constructor; [discriminate|]). constructor.
  - reflexivity.
Defined.

(** X21: on an input that contains [github.com] and parses as a URL
    (after [https://] is put in front when it does not start with
    [http]), [extractUsername] returns the first non-empty segment of
    the path. *)
Theorem extractUsername_reads_profile_url
    (p : Platform) (input pathname first : string) (rest : list string) :
  includes "github.com" (String_trim p input) = true ->
  new_URL_pathname p
    (if String.prefix "http" (String_trim p input) then String_trim p input
     else ("https://" +:+ String_trim p input)%string) = Resolved pathname ->
  path_segments pathname = first :: rest ->
  outcome (extractUsername p input) = Resolved (Some first) /\
  trace_of (extractUsername p input) = [].
Proof.
  intros Hinc Hurl Hseg.
  unfold outcome, trace_of, extractUsername, bind, try_catch, settle.
  rewrite Hinc, Hurl. simpl. rewrite Hseg. split; reflexivity.
Qed.

Lemma extractUsername_reads_profile_url_witness :
  outcome (extractUsername sample_platform "github.com/octocat/Hello-World")
  = Resolved (Some "octocat"%string).
Proof.
  refine (proj1 (extractUsername_reads_profile_url sample_platform
                   "github.com/octocat/Hello-World" "/octocat/Hello-World"
                   "octocat" ["Hello-World"%string] _ _ _)); reflexivity.
Defined.



(** X23: [today] is the part of the ISO time stamp before the [T]. *)
Theorem today_is_the_date_part_of_the_clock (w : World) (d rest : string) :
  Date_now_toISOString w = (d +:+ String "T" rest)%string ->
  Forall (fun c => c <> "T"%char) (list_ascii_of_string d) ->
  today_of w = d.
Proof.
  intros E H. unfold today_of. rewrite E. clear E.
  induction d as [|c d IH]; simpl; [reflexivity|].
  apply Forall_cons in H as [Hc Hd]. apply Ascii.eqb_neq in Hc. rewrite Hc.
  now rewrite IH.
Qed.

Lemma today_is_the_date_part_of_the_clock_witness :
  today_of (world_answering partial_assessment_text) = "2024-03-01"%string.
Proof.
  apply (today_is_the_date_part_of_the_clock (world_answering partial_assessment_text)
           "2024-03-01" "12:00:00.000Z").
  - reflexivity.
  - vm_compute. repeat (constructor; [discriminate|]). constructor.
Defined.
